(** * Distributed traffic simulation: master and worker nodes

    A shallow embedding of [src/distributed_traffic_sim.py].

    The master process and each worker process are separate operating-system
    processes with their own copies of the module globals, so the master's
    globals are gathered in the record [Master] and a worker's in [Worker.t].
    Request handlers are state transformers on the process they run in.  The
    environment (the wall clock, the random source, the network and the
    requests served by Flask's threads while a loop is blocked) is passed in
    explicitly.

    Conventions.
    - Python numbers that may be floats (coordinates, clock readings, random
      rolls) are exact rationals [Q]; counts and step numbers are [Z].
    - A dictionary is a [gmap]; [map_to_list] fixes one iteration order where
      Python iterates in insertion order.
    - [print] output is collected as a list of [LogLine]. *)

From Stdlib Require Import ZArith QArith Lqa List Sorted Lia String.
From stdpp Require Import gmap strings list fin_maps pretty.

(** ** Numbers and clock readings *)

Abbreviation Time := Q.

(** [a > b] and [a < b] on Python numbers. *)
Definition gtQ (a b : Q) : bool := negb (Qle_bool a b).
Definition ltQ (a b : Q) : bool := negb (Qle_bool b a).

(** ** Global configuration (lines 83-87) *)

Definition ZONE_SIZE : Q := 200.
Definition ROAD_WIDTH : Q := 20.
Definition CAR_SIZE : Q := 5.
Definition CAR_SPEED : Q := 7.
Definition MAX_CARS_PER_ZONE : nat := 80.

(** The four headings ['E'], ['W'], ['S'], ['N']; the only values
    [random.choice] can hand to a [Vehicle]. *)
Inductive Direction : Type := dirE | dirW | dirS | dirN.

(** ** class Vehicle *)

Module Vehicle.

Record t : Type := mk {
  x : Q;
  y : Q;
  direction : Direction;
  zone_bounds : Q * Q * Q * Q; (* (min_x, min_y, max_x, max_y) *)
  id : string
}.

Definition set_x (v : t) (x' : Q) : t :=
  mk x' (y v) (direction v) (zone_bounds v) (id v).

Definition set_y (v : t) (y' : Q) : t :=
  mk (x v) y' (direction v) (zone_bounds v) (id v).

Definition move (v : t) : t :=
  let '(min_x, min_y, max_x, max_y) := zone_bounds v in
  match direction v with
  | dirE =>
      let x1 := (x v + CAR_SPEED)%Q in
      set_x v (if gtQ x1 (max_x + CAR_SIZE) then (min_x - CAR_SIZE)%Q else x1)
  | dirW =>
      let x1 := (x v - CAR_SPEED)%Q in
      set_x v (if ltQ x1 (min_x - CAR_SIZE) then (max_x + CAR_SIZE)%Q else x1)
  | dirS =>
      let y1 := (y v + CAR_SPEED)%Q in
      set_y v (if gtQ y1 (max_y + CAR_SIZE) then (min_y - CAR_SIZE)%Q else y1)
  | dirN =>
      let y1 := (y v - CAR_SPEED)%Q in
      set_y v (if ltQ y1 (min_y - CAR_SIZE) then (max_y + CAR_SIZE)%Q else y1)
  end.

(** The coordinate that [move] changes, and the bounds on that axis. *)
Definition axis_coord (v : t) : Q :=
  match direction v with
  | dirE | dirW => x v
  | dirS | dirN => y v
  end.

Definition bound_min (v : t) : Q :=
  let '(min_x, min_y, _, _) := zone_bounds v in
  match direction v with
  | dirE | dirW => min_x
  | dirS | dirN => min_y
  end.

Definition bound_max (v : t) : Q :=
  let '(_, _, max_x, max_y) := zone_bounds v in
  match direction v with
  | dirE | dirW => max_x
  | dirS | dirN => max_y
  end.

End Vehicle.

(** The dictionary returned by [Vehicle.get_state]. *)
Module VehicleState.

Record t : Type := mk {
  id : string;
  x : Q;
  y : Q;
  direction : Direction
}.

End VehicleState.

Definition Vehicle_get_state (v : Vehicle.t) : VehicleState.t :=
  VehicleState.mk (Vehicle.id v) (Vehicle.x v) (Vehicle.y v) (Vehicle.direction v).

(** ** class TrafficLight *)

Inductive Colour : Type := red | green.

Module LightState.

Record t : Type := mk {
  x : Q;
  y : Q;
  state : Colour
}.

End LightState.

Module TrafficLight.

Record t : Type := mk {
  x : Q;
  y : Q;
  state : Colour;
  last_change_time : Time;
  cycle_time : Q
}.

Definition init (now : Time) (x0 y0 : Q) : t := mk x0 y0 red now 2%Q.

Definition update (now : Time) (l : t) : t :=
  if gtQ (now - last_change_time l) (cycle_time l)
  then mk (x l) (y l)
          (match state l with red => green | green => red end)
          now (cycle_time l)
  else l.

Definition get_state (l : t) : LightState.t :=
  LightState.mk (x l) (y l) (state l).

End TrafficLight.

(** ** Master node data *)

(** [{'vehicles': [...], 'traffic_light': ...}] *)
Module ZoneData.

Record t : Type := mk {
  vehicles : list VehicleState.t;
  traffic_light : option LightState.t
}.

End ZoneData.

(** One value of [registered_workers]. *)
Module WorkerRecord.

Record t : Type := mk {
  url : string;
  last_seen : Time;
  car_count : Z;
  id : string;
  current_zone_data : ZoneData.t
}.

End WorkerRecord.

Record Master : Type := mkMaster {
  registered_workers : gmap string WorkerRecord.t;
  total_cars_in_sim : Z;
  simulation_step : Z;
  simulation_active : bool;
  simulation_start_time : Time;
  step_start_time : Time;
  step_times : list Q;
  graph_data_history : list (Z * Z);
  full_simulation_grid_data : gmap string ZoneData.t
}.

(** The module globals as the interpreter initialises them (lines 60-73). *)
Definition initial_master : Master :=
  mkMaster ∅ 0%Z 0%Z true 0%Q 0%Q [] [] ∅.

(** ** collections.deque(maxlen=...) *)

(** [d.append(x)] on a bounded deque: a full deque drops its oldest (leftmost)
    element; with [maxlen = 0] nothing is ever stored. *)
Definition deque_append {A : Type} (maxlen : nat) (x : A) (d : list A) : list A :=
  if (maxlen =? 0)%nat then []
  else if (length d <? maxlen)%nat then d ++ [x]
  else drop (S (length d) - maxlen) (d ++ [x]).

Definition HISTORY_MAXLEN : nat := 100.

(** ** Printed lines *)

Inductive LogLine : Type :=
| Line (text : string)
| Registered (worker_id zone worker_url : string)
| UnknownOrMismatched (worker_id zone : string)
| WaitTimedOut (got expected : nat)
| StartingWith (n : nat) (zones : list string)
| WorkerCallError (zone worker_url e : string)
| AvgStepTime (avg : Q).

(** ** HTTP requests and responses *)

Module RegisterRequest.

Record t : Type := mk {
  zone : option string;
  worker_url : option string;
  worker_id : option string
}.

End RegisterRequest.

Module UpdateRequest.

Record t : Type := mk {
  zone : option string;
  car_count : option Z;
  worker_id : option string;
  vehicles : option (list VehicleState.t);
  traffic_light : option LightState.t
}.

End UpdateRequest.

Inductive Body : Type :=
| message (s : string)
| error (s : string)
| acknowledged (worker_id : string).

Record Response : Type := mkResponse {
  body : Body;
  status_code : Z
}.

(** Python truthiness of an optional JSON string: [None] and [""] are falsy. *)
Definition truthy (o : option string) : option string :=
  match o with
  | Some s => if decide (s = EmptyString) then None else Some s
  | None => None
  end.

(** ** Assignments to the master's globals *)

Definition set_registered_workers (m : Master) (v : gmap string WorkerRecord.t) : Master :=
  mkMaster v (total_cars_in_sim m) (simulation_step m) (simulation_active m)
           (simulation_start_time m) (step_start_time m) (step_times m)
           (graph_data_history m) (full_simulation_grid_data m).

Definition set_total_cars_in_sim (m : Master) (v : Z) : Master :=
  mkMaster (registered_workers m) v (simulation_step m) (simulation_active m)
           (simulation_start_time m) (step_start_time m) (step_times m)
           (graph_data_history m) (full_simulation_grid_data m).

Definition set_simulation_step (m : Master) (v : Z) : Master :=
  mkMaster (registered_workers m) (total_cars_in_sim m) v (simulation_active m)
           (simulation_start_time m) (step_start_time m) (step_times m)
           (graph_data_history m) (full_simulation_grid_data m).

Definition set_simulation_active (m : Master) (v : bool) : Master :=
  mkMaster (registered_workers m) (total_cars_in_sim m) (simulation_step m) v
           (simulation_start_time m) (step_start_time m) (step_times m)
           (graph_data_history m) (full_simulation_grid_data m).

Definition set_simulation_start_time (m : Master) (v : Time) : Master :=
  mkMaster (registered_workers m) (total_cars_in_sim m) (simulation_step m)
           (simulation_active m) v (step_start_time m) (step_times m)
           (graph_data_history m) (full_simulation_grid_data m).

Definition set_step_start_time (m : Master) (v : Time) : Master :=
  mkMaster (registered_workers m) (total_cars_in_sim m) (simulation_step m)
           (simulation_active m) (simulation_start_time m) v (step_times m)
           (graph_data_history m) (full_simulation_grid_data m).

Definition set_step_times (m : Master) (v : list Q) : Master :=
  mkMaster (registered_workers m) (total_cars_in_sim m) (simulation_step m)
           (simulation_active m) (simulation_start_time m) (step_start_time m) v
           (graph_data_history m) (full_simulation_grid_data m).

Definition set_graph_data_history (m : Master) (v : list (Z * Z)) : Master :=
  mkMaster (registered_workers m) (total_cars_in_sim m) (simulation_step m)
           (simulation_active m) (simulation_start_time m) (step_start_time m)
           (step_times m) v (full_simulation_grid_data m).

Definition set_full_simulation_grid_data (m : Master) (v : gmap string ZoneData.t) : Master :=
  mkMaster (registered_workers m) (total_cars_in_sim m) (simulation_step m)
           (simulation_active m) (simulation_start_time m) (step_start_time m)
           (step_times m) (graph_data_history m) v.

(** [sum(data['car_count'] for data in registered_workers.values())] *)
Definition sumZ (l : list Z) : Z := foldr Z.add 0%Z l.

Definition sum_car_counts (workers : gmap string WorkerRecord.t) : Z :=
  sumZ ((λ kv, WorkerRecord.car_count kv.2) <$> map_to_list workers).

(** ** POST /register_worker (lines 584-603) *)

Definition register_worker (now : Time) (data : RegisterRequest.t) (m : Master)
  : Master * Response * list LogLine :=
  match truthy (RegisterRequest.zone data),
        truthy (RegisterRequest.worker_url data),
        truthy (RegisterRequest.worker_id data) with
  | Some zone, Some worker_url, Some worker_id =>
      let record :=
        WorkerRecord.mk worker_url now 0%Z worker_id (ZoneData.mk [] None) in
      (set_registered_workers m (<[zone := record]> (registered_workers m)),
       mkResponse
         (message ("Worker " +:+ worker_id +:+ " registered successfully")) 200,
       [Registered worker_id zone worker_url])
  | _, _, _ =>
      (m, mkResponse (error "Missing zone, worker_url, or worker_id") 400, [])
  end.

(** ** POST /traffic_update (lines 605-645) *)

Definition traffic_update (now : Time) (data : UpdateRequest.t) (m : Master)
  : Master * Response * list LogLine :=
  let zone_vehicles := default [] (UpdateRequest.vehicles data) in
  let zone_traffic_light := UpdateRequest.traffic_light data in
  match truthy (UpdateRequest.zone data),
        UpdateRequest.car_count data,
        truthy (UpdateRequest.worker_id data) with
  | Some zone, Some car_count, Some worker_id_from_update =>
      let reject :=
        (m, mkResponse (error "Worker not registered or ID mismatch") 404,
         [UnknownOrMismatched worker_id_from_update zone]) in
      match registered_workers m !! zone with
      | Some info =>
          if decide (WorkerRecord.id info = worker_id_from_update) then
            let old_car_count := WorkerRecord.car_count info in
            let zone_data := ZoneData.mk zone_vehicles zone_traffic_light in
            let info' :=
              WorkerRecord.mk (WorkerRecord.url info) now car_count
                              (WorkerRecord.id info) zone_data in
            let m1 :=
              set_registered_workers m (<[zone := info']> (registered_workers m)) in
            let m2 :=
              set_total_cars_in_sim m1
                (total_cars_in_sim m1 + (car_count - old_car_count))%Z in
            let m3 :=
              set_full_simulation_grid_data m2
                (<[zone := zone_data]> (full_simulation_grid_data m2)) in
            (m3, mkResponse (message "Update received") 200, [])
          else reject
      | None => reject
      end
  | _, _, _ =>
      (m, mkResponse (error "Missing zone, car_count, or worker_id") 400, [])
  end.

(** ** GET /stream_data (lines 537-581) *)

Module WorkerDetails.

Record t : Type := mk {
  url : string;
  last_seen : Time;
  car_count : Z;
  id : string
}.

End WorkerDetails.

Inductive PayloadType : Type := initial_data | update.

Module Payload.

Record t : Type := mk {
  type : PayloadType;
  status : string;
  step : Z;
  total_cars : Z;
  num_workers : nat;
  history : list (Z * Z);
  zone_data : gmap string ZoneData.t;
  registered_workers : gmap string WorkerDetails.t
}.

End Payload.

Definition worker_details (data : WorkerRecord.t) : WorkerDetails.t :=
  WorkerDetails.mk (WorkerRecord.url data) (WorkerRecord.last_seen data)
                   (WorkerRecord.car_count data) (WorkerRecord.id data).

(** One pass through the body of [while True] in [generate_data], up to the
    [time.sleep(0.5)]: [m] is the master state the pass reads (its reads are
    taken as one observation), [last_step_sent] the generator's local
    variable.  The result is the event yielded by this
    pass, if any, and the new value of [last_step_sent]. *)
Definition generate_data_pass (m : Master) (last_step_sent : Z)
  : option Payload.t * Z :=
  let current_total_cars := sum_car_counts (registered_workers m) in
  let current_simulation_step := simulation_step m in
  let current_status := if simulation_active m then "Active" else "Inactive" in
  let current_num_workers := size (registered_workers m) in
  let current_registered_workers_details :=
    worker_details <$> registered_workers m in
  if (current_simulation_step >? last_step_sent)%Z
     || ((current_simulation_step =? 0)%Z && (last_step_sent =? -1)%Z)
  then
    let payload_type :=
      if (last_step_sent =? -1)%Z then initial_data else update in
    (Some (Payload.mk payload_type current_status current_simulation_step
                      current_total_cars current_num_workers
                      (graph_data_history m) (full_simulation_grid_data m)
                      current_registered_workers_details),
     current_simulation_step)
  else (None, last_step_sent).

(** The generator run over the master states it observes at its successive
    wake-ups; the result lists, per wake-up, what was yielded. *)
Fixpoint generate_data_from (last_step_sent : Z) (observed : list Master)
  : list (option Payload.t) :=
  match observed with
  | [] => []
  | m :: rest =>
      let '(event, last') := generate_data_pass m last_step_sent in
      event :: generate_data_from last' rest
  end.

(** A new connection starts with [last_step_sent = -1]. *)
Definition generate_data (observed : list Master) : list (option Payload.t) :=
  generate_data_from (-1) observed.

(** The events actually delivered to the subscriber, in order. *)
Definition emitted (events : list (option Payload.t)) : list Payload.t :=
  omap (λ e, e) events.

(** ** The master's simulation loop (lines 647-713) *)

Module StepCommand.

Record t : Type := mk {
  step : Z;
  master_id : string
}.

End StepCommand.

(** What the master process emits: printed lines and the step commands it
    posts to [<worker_url>/simulate_step]. *)
Inductive Output : Type :=
| Printed (l : LogLine)
| PostedStep (worker_url : string) (json : StepCommand.t).

(** A request served by one of Flask's threads, with the clock reading its
    handler takes.  These are the two requests a worker sends to the master
    ([worker_startup] posts the first, [worker_simulate_step] the second);
    [/simulate_step] is what the master sends to workers, never the reverse. *)
Inductive Request : Type :=
| RegisterWorker (data : RegisterRequest.t)
| TrafficUpdate (data : UpdateRequest.t).

Record Arrival : Type := mkArrival {
  arrival_time : Time;
  arrival_request : Request
}.

Definition serve (st : Master * list Output) (a : Arrival) : Master * list Output :=
  let '(m, out) := st in
  let '(m', _, lines) :=
    match arrival_request a with
    | RegisterWorker data => register_worker (arrival_time a) data m
    | TrafficUpdate data => traffic_update (arrival_time a) data m
    end in
  (m', out ++ (Printed <$> lines)).

Definition serve_all (arrivals : list Arrival) (st : Master * list Output)
  : Master * list Output :=
  foldl serve st arrivals.

(** The outcome of one [requests.post(...)] followed by
    [response.raise_for_status()], as the loop sees it: the requests that the
    master served while the call was blocked (the worker's report among them,
    when it got through), and the [RequestException], if one was raised. *)
Record CallResult : Type := mkCallResult {
  served_during_call : list Arrival;
  failure : option string
}.

Record CycleEnv : Type := mkCycleEnv {
  step_clock : Time;
  post_simulate_step : string → string → StepCommand.t → CallResult;
  step_end_clock : Time
}.

(** The body of [for zone, worker_info in list(registered_workers.items())]. *)
Definition call_worker (env : CycleEnv) (st : Master * list Output)
           (item : string * WorkerRecord.t) : Master * list Output :=
  let '(zone, worker_info) := item in
  let worker_url := WorkerRecord.url worker_info in
  let json := StepCommand.mk (simulation_step st.1) "master_123" in
  let result := post_simulate_step env zone worker_url json in
  let '(m, out) :=
    serve_all (served_during_call result)
              (st.1, st.2 ++ [PostedStep worker_url json]) in
  match failure result with
  | Some e => (m, out ++ [Printed (WorkerCallError zone worker_url e)])
  | None => (m, out)
  end.

(** One iteration of the [while] loop at line 674, up to (not including) the
    final [time.sleep(0.5)]. *)
Definition master_cycle (env : CycleEnv) (st : Master * list Output)
  : Master * list Output :=
  let '(m, out) := st in
  let m1 := set_simulation_step m (simulation_step m + 1)%Z in
  let m2 := set_step_start_time m1 (step_clock env) in
  let '(m3, out3) :=
    foldl (call_worker env) (m2, out) (map_to_list (registered_workers m2)) in
  let current_total_cars := sum_car_counts (registered_workers m3) in
  let m4 :=
    set_graph_data_history m3
      (deque_append HISTORY_MAXLEN (simulation_step m3, current_total_cars)
                    (graph_data_history m3)) in
  let step_duration := (step_end_clock env - step_start_time m4)%Q in
  (set_step_times m4 (step_times m4 ++ [step_duration]), out3).

Record WaitTick : Type := mkWaitTick {
  wait_clock : Time;
  served_during_wait : list Arrival
}.

Record CycleTick : Type := mkCycleTick {
  loop_clock : Time;
  cycle_env : CycleEnv;
  served_during_sleep : list Arrival
}.

Record LoopEnv : Type := mkLoopEnv {
  start_clock : Time;
  wait_start_clock : Time;
  waits : list WaitTick;
  cycles : list CycleTick
}.

Definition expected_zones : list string := ["North"; "South"; "East"; "West"].
Definition initial_wait_timeout : Q := 30.

(** The registration wait (lines 661-665).  [None]: the recorded environment
    ends while the loop is still waiting. *)
Fixpoint wait_for_workers (start_wait_time : Time) (ticks : list WaitTick)
         (st : Master * list Output) : option (Master * list Output) :=
  if (size (registered_workers st.1) <? length expected_zones)%nat then
    match ticks with
    | [] => None
    | w :: rest =>
        if gtQ (wait_clock w - start_wait_time) initial_wait_timeout then
          Some (st.1,
                st.2 ++ [Printed (WaitTimedOut (size (registered_workers st.1))
                                               (length expected_zones))])
        else wait_for_workers start_wait_time rest
                              (serve_all (served_during_wait w) st)
    end
  else Some st.

(** [time.time() < end_time], where [None] stands for [float('inf')]. *)
Definition before (now : Time) (end_time : option Time) : bool :=
  match end_time with
  | Some t => ltQ now t
  | None => true
  end.

(** The stepping loop (lines 674-704).  [None]: the recorded environment ends
    while the loop is still running. *)
Fixpoint run_cycles (end_time : option Time) (ticks : list CycleTick)
         (st : Master * list Output) : option (Master * list Output) :=
  if simulation_active st.1 then
    match ticks with
    | [] => None
    | c :: rest =>
        if before (loop_clock c) end_time then
          run_cycles end_time rest
                     (serve_all (served_during_sleep c)
                                (master_cycle (cycle_env c) st))
        else Some st
    end
  else Some st.

(** How a piece of code hands control back: by falling through or returning,
    or by [sys.exit(status)]. *)
Inductive Control : Type :=
| Normal
| SysExit (status : Z).

Record Run : Type := mkRun {
  final : Master;
  output : list Output;
  control : Control
}.

(** [statistics.mean] of a non-empty list. *)
Definition mean (l : list Q) : Q :=
  (foldr Qplus 0 l / inject_Z (Z.of_nat (length l)))%Q.

(** Lines 651-665: the start of [master_simulation_loop], up to the end of the
    registration wait. *)
Definition startup_wait (env : LoopEnv) (m : Master)
  : option (Master * list Output) :=
  let out0 := [Printed (Line "Master: Starting simulation loop...")] in
  let m0 := set_simulation_start_time m (start_clock env) in
  let out1 :=
    out0 ++ [Printed (Line "Master: Waiting for workers to register...")] in
  wait_for_workers (wait_start_clock env) (waits env) (m0, out1).

Definition master_simulation_loop (duration : option Z) (test_mode : bool)
           (env : LoopEnv) (m : Master) : option Run :=
  let end_time :=
    match duration with
    | Some d =>
        if (d =? 0)%Z then None
        else Some (start_clock env + inject_Z d)%Q
    | None => None
    end in
  match startup_wait env m with
  | None => None
  | Some (m1, out2) =>
      if (size (registered_workers m1) =? 0)%nat then
        Some (mkRun (set_simulation_active m1 false)
                    (out2 ++ [Printed (Line "Master: No workers registered. Exiting simulation.")])
                    Normal)
      else
        let out3 :=
          out2 ++ [Printed (StartingWith (size (registered_workers m1))
                                         (map_to_list (registered_workers m1)).*1)] in
        match run_cycles end_time (cycles env) (m1, out3) with
        | None => None
        | Some (m2, out4) =>
            let m3 := set_simulation_active m2 false in
            let out5 :=
              out4 ++ [Printed (Line "Master: Simulation loop finished.")] in
            let out6 :=
              if test_mode then
                match step_times m3 with
                | [] => out5 ++ [Printed (Line "Performance Metrics: No step times recorded for test mode.")]
                | _ :: _ => out5 ++ [Printed (AvgStepTime (mean (step_times m3)))]
                end
              else out5 in
            Some (mkRun m3 out6 Normal)
        end
  end.

(** ** Worker node (lines 718-780) *)

Definition current_zone_bounds : Q * Q * Q * Q := (0, 0, ZONE_SIZE, ZONE_SIZE)%Q.

Module Worker.

(** The worker process's globals that [worker_simulate_step] reads or writes.
    [simulation_step] is this process's own copy of the module global. *)
Record t : Type := mk {
  worker_zone : option string;
  worker_id : string;
  simulation_step : Z;
  worker_vehicles : list Vehicle.t;
  worker_traffic_light : option TrafficLight.t
}.

End Worker.

(** The values the random source returns during one tick, each used only if
    the corresponding call is reached:
    [spawn_roll] and [removal_roll] for the two [random.random()],
    [spawn_direction] for [random.choice(['E', 'W', 'N', 'S'])],
    [id_raw] and [removal_raw] for the two [random.randint]. *)
Record Draws : Type := mkDraws {
  spawn_roll : Q;
  spawn_direction : Direction;
  id_raw : Z;
  removal_roll : Q;
  removal_raw : Z
}.

(** [random.randint(a, b)]: an integer in [a..b], here picked by [raw]. *)
Definition randint (a b raw : Z) : Z := (a + raw mod (b - a + 1))%Z.

(** Lines 744-747. *)
Definition spawn_point (d : Direction) : Q * Q :=
  match d with
  | dirE => (- CAR_SIZE, ZONE_SIZE / 2 - CAR_SIZE / 2)%Q
  | dirW => (ZONE_SIZE, ZONE_SIZE / 2 - CAR_SIZE / 2)%Q
  | dirS => (ZONE_SIZE / 2 - CAR_SIZE / 2, - CAR_SIZE)%Q
  | dirN => (ZONE_SIZE / 2 - CAR_SIZE / 2, ZONE_SIZE)%Q
  end.

(** Lines 741-751: the spawn. *)
Definition maybe_spawn (rnd : Draws) (worker_id : string) (simulation_step : Z)
           (worker_vehicles : list Vehicle.t) : list Vehicle.t :=
  if ltQ (spawn_roll rnd) (4 # 10)
     && (length worker_vehicles <? MAX_CARS_PER_ZONE)%nat
  then
    let direction := spawn_direction rnd in
    let '(x, y) := spawn_point direction in
    let new_car_id :=
      worker_id +:+ "_car_" +:+ pretty simulation_step +:+ "_"
                +:+ pretty (randint 0 1000 (id_raw rnd)) in
    worker_vehicles ++ [Vehicle.mk x y direction current_zone_bounds new_car_id]
  else worker_vehicles.

(** Lines 754-756: the occasional removal. *)
Definition maybe_remove (rnd : Draws) (worker_vehicles : list Vehicle.t)
  : list Vehicle.t :=
  if ltQ (removal_roll rnd) (2 # 100) && (20 <? length worker_vehicles)%nat
  then
    let i := randint 0 (Z.of_nat (length worker_vehicles) - 1) (removal_raw rnd) in
    delete (Z.to_nat i) worker_vehicles
  else worker_vehicles.

(** POST /simulate_step.  The result is the worker's new state, the body it
    posts to the master's [/traffic_update], and its own response.  Whether
    that post succeeds changes only what the worker prints. *)
Definition worker_simulate_step (rnd : Draws) (now : Time) (data : StepCommand.t)
           (w : Worker.t) : Worker.t * UpdateRequest.t * Response :=
  let master_step := StepCommand.step data in
  let simulation_step := master_step in
  let worker_traffic_light :=
    TrafficLight.update now <$> Worker.worker_traffic_light w in
  let moved := Vehicle.move <$> Worker.worker_vehicles w in
  let spawned := maybe_spawn rnd (Worker.worker_id w) simulation_step moved in
  let worker_vehicles := maybe_remove rnd spawned in
  let vehicles_state := Vehicle_get_state <$> worker_vehicles in
  let traffic_light_state := TrafficLight.get_state <$> worker_traffic_light in
  (Worker.mk (Worker.worker_zone w) (Worker.worker_id w) simulation_step
             worker_vehicles worker_traffic_light,
   UpdateRequest.mk (Worker.worker_zone w)
                    (Some (Z.of_nat (length worker_vehicles)))
                    (Some (Worker.worker_id w))
                    (Some vehicles_state)
                    traffic_light_state,
   mkResponse (acknowledged (Worker.worker_id w)) 200).

(** ** Worker registration (lines 826-855 of [worker_startup]) *)

Inductive PostResult : Type :=
| PostOk
| PostConnectionError
| PostRequestException (e : string).

(** The [while retries > 0: ... else: sys.exit(1)] loop.  [attempt k] is the
    outcome of the post made with [k] retries left. *)
Fixpoint register_with_master (worker_id worker_zone master_url self_url : string)
         (attempt : nat → PostResult) (retries : nat) : list LogLine * Control :=
  match retries with
  | O =>
      ([Line ("Worker " +:+ worker_id
              +:+ ": Failed to register with master after multiple retries. Exiting.")],
       SysExit 1)
  | S n =>
      match attempt retries with
      | PostOk =>
          ([Line ("Worker " +:+ worker_id +:+ " (" +:+ worker_zone
                  +:+ "): Registered successfully with master! My URL: " +:+ self_url)],
           Normal)
      | PostConnectionError =>
          let '(lines, c) :=
            register_with_master worker_id worker_zone master_url self_url attempt n in
          (Line ("Worker " +:+ worker_id +:+ ": Master not reachable at "
                 +:+ master_url +:+ ". Retrying (" +:+ pretty retries +:+ " left)...")
           :: lines, c)
      | PostRequestException e =>
          let '(lines, c) :=
            register_with_master worker_id worker_zone master_url self_url attempt n in
          (Line ("Worker " +:+ worker_id +:+ ": Registration error: " +:+ e)
           :: lines, c)
      end
  end.

(** ** Notions used in the statements *)

(** The globals that only [master_simulation_loop] assigns. *)
Definition loop_globals (m : Master)
  : Z * bool * Time * Time * list Q * list (Z * Z) :=
  (simulation_step m, simulation_active m, simulation_start_time m,
   step_start_time m, step_times m, graph_data_history m).

(** The zone a request is about. *)
Definition request_zone (r : Request) : option string :=
  match r with
  | RegisterWorker data => RegisterRequest.zone data
  | TrafficUpdate data => UpdateRequest.zone data
  end.

(** No request served during any call of the cycle is about [zone]. *)
Definition silent_about (zone : string) (env : CycleEnv) : Prop :=
  ∀ z worker_url json,
    Forall (λ a, request_zone (arrival_request a) ≠ Some zone)
           (served_during_call (post_simulate_step env z worker_url json)).

(** The step commands among the master's outputs, in the order posted. *)
Definition posted (out : list Output) : list (string * StepCommand.t) :=
  omap (λ o, match o with
             | PostedStep worker_url json => Some (worker_url, json)
             | Printed _ => None
             end) out.

(** ** Sample inputs *)

Definition north_registration (worker_id : string) : RegisterRequest.t :=
  RegisterRequest.mk (Some "North") (Some "http://localhost:5100") (Some worker_id).

Definition north_report (worker_id : string) (count : Z) : UpdateRequest.t :=
  UpdateRequest.mk (Some "North") (Some count) (Some worker_id) (Some []) None.

(** Zone North registers as [worker_1], reports 5 cars, and is then
    re-registered by a new process [worker_2]. *)
Definition north_registered : Master :=
  (register_worker 1 (north_registration "worker_1") initial_master).1.1.

Definition north_reported : Master :=
  (traffic_update 2 (north_report "worker_1" 5) north_registered).1.1.

Definition north_reregistered : Master :=
  (register_worker 3 (north_registration "worker_2") north_reported).1.1.

(** A cycle in which every worker call times out and nothing is served. *)
Definition all_calls_fail : CycleEnv :=
  mkCycleEnv 4 (λ _ _ _, mkCallResult [] (Some "timed out")) 5.

(** The loop body run once per tick, without consulting the clock: the cycle,
    then the requests served during its closing sleep. *)
Definition cycle_then_sleep (st : Master * list Output) (c : CycleTick)
  : Master * list Output :=
  serve_all (served_during_sleep c) (master_cycle (cycle_env c) st).

Definition after_cycles (ticks : list CycleTick) (st : Master * list Output)
  : Master * list Output :=
  foldl cycle_then_sleep st ticks.

(** The master state at the end of each of these cycles (before its sleep). *)
Fixpoint cycle_ends (ticks : list CycleTick) (st : Master * list Output)
  : list Master :=
  match ticks with
  | [] => []
  | c :: rest =>
      (master_cycle (cycle_env c) st).1 :: cycle_ends rest (cycle_then_sleep st c)
  end.

(** The sample a cycle ending in state [m] has appended. *)
Definition recorded_sample (m : Master) : Z * Z :=
  (simulation_step m, sum_car_counts (registered_workers m)).

(** A tick whose calls all fail and during which nothing is served. *)
Definition quiet_tick : CycleTick := mkCycleTick 0 all_calls_fail [].

(** A report for zone North that carries no [car_count]. *)
Definition report_without_count : UpdateRequest.t :=
  UpdateRequest.mk (Some "North") None (Some "worker_1") None None.

(** An event carrying the whole of what the master state [m] holds. *)
Definition carries_full_state (m : Master) (p : Payload.t) : Prop :=
  Payload.status p = (if simulation_active m then "Active" else "Inactive")
  ∧ Payload.step p = simulation_step m
  ∧ Payload.total_cars p = sum_car_counts (registered_workers m)
  ∧ Payload.num_workers p = size (registered_workers m)
  ∧ Payload.history p = graph_data_history m
  ∧ Payload.zone_data p = full_simulation_grid_data m
  ∧ Payload.registered_workers p = worker_details <$> registered_workers m.

(** Nobody registers; the wait loop reads the clock once a second and gives
    up at the 31st second. *)
Definition nobody_registers : LoopEnv :=
  mkLoopEnv 0 0 ((λ t, mkWaitTick (inject_Z t) []) <$> seqZ 0 32) [].

(** An east-bound car two pixels short of the wrap threshold. *)
Definition car_near_edge : Vehicle.t :=
  Vehicle.mk 203 (195 # 2) dirE current_zone_bounds "car_North_0".

(** A worker whose zone is at capacity, and draws that would both spawn and
    remove if the counts allowed it. *)
Definition worker_at_capacity : Worker.t :=
  Worker.mk (Some "North") "worker_1" 0
            (replicate MAX_CARS_PER_ZONE car_near_edge) None.

Definition eager_draws : Draws := mkDraws (1 # 10) dirE 17 (1 # 2) 3.

(** Two readings of the loop clock around a ten-second deadline. *)
Definition one_cycle_then_deadline : list CycleTick :=
  [mkCycleTick 1 all_calls_fail []; mkCycleTick 11 all_calls_fail []].

(** What a subscriber sees when it wakes up twice before the first cycle,
    twice during the first and once during the second. *)
Definition subscriber_view : list Master :=
  let m1 := (after_cycles [quiet_tick] (north_reported, [])).1 in
  let m2 := (after_cycles [quiet_tick; quiet_tick] (north_reported, [])).1 in
  [north_reported; north_reported; m1; m1; m2].

(** ** The rest of [worker_startup] (lines 782-861) *)

(** [random.uniform(a, b)], which the standard library computes as
    [a + (b - a) * random()]; [u] is that [random()]. *)
Definition uniform (a b u : Q) : Q := (a + (b - a) * u)%Q.

(** Lines 795-798: where an initial car is put, by heading. *)
Definition initial_position (d : Direction) (u : Q) : Q * Q :=
  match d with
  | dirE => (uniform 0 (ZONE_SIZE * (4 # 10)) u, ZONE_SIZE / 2 - CAR_SIZE / 2)%Q
  | dirW => (uniform (ZONE_SIZE * (6 # 10)) ZONE_SIZE u, ZONE_SIZE / 2 - CAR_SIZE / 2)%Q
  | dirS => (ZONE_SIZE / 2 - CAR_SIZE / 2, uniform 0 (ZONE_SIZE * (4 # 10)) u)%Q
  | dirN => (ZONE_SIZE / 2 - CAR_SIZE / 2, uniform (ZONE_SIZE * (6 # 10)) ZONE_SIZE u)%Q
  end.

(** Lines 790-800.  [count_raw] picks [random.randint(20, 35)]; [draw i] is
    the heading chosen for car [i] and the [random()] behind its
    [random.uniform]. *)
Definition initial_vehicles (zone : string) (count_raw : Z)
           (draw : nat → Direction * Q) : list Vehicle.t :=
  let initial_car_count := randint 20 35 count_raw in
  (λ i, let '(direction, u) := draw i in
        let '(x, y) := initial_position direction u in
        Vehicle.mk x y direction current_zone_bounds
                   ("car_" +:+ zone +:+ "_" +:+ pretty i))
    <$> seq 0 (Z.to_nat initial_car_count).

(** Lines 805-817: the first port of [range(base_port, base_port + 200)] on
    which [s.bind] succeeds; [can_bind p] tells whether it does on [p]. *)
Definition find_worker_port (can_bind : Z → bool) (master_port : Z) : option Z :=
  snd <$> list_find (λ p, can_bind p = true) (seqZ (master_port + 100) 200).

Record StartupEnv : Type := mkStartupEnv {
  pid : Z;
  initial_count_raw : Z;
  initial_draw : nat → Direction * Q;
  light_clock : Time;
  can_bind : Z → bool;
  registration_attempt : nat → PostResult
}.

(** [worker_id = f"worker_{os.getpid()}"] (line 80). *)
Definition worker_id_of (pid : Z) : string := "worker_" +:+ pretty pid.

(** The body posted to [/register_worker] (lines 835-839). *)
Definition registration_request (zone : string) (pid worker_self_port : Z)
  : RegisterRequest.t :=
  RegisterRequest.mk (Some zone)
                     (Some ("http://localhost:" +:+ pretty worker_self_port))
                     (Some (worker_id_of pid)).

(** [worker_startup(zone, host, port)] up to the point where the worker is
    ready and only waits for commands: the worker's globals, what it printed,
    and whether it got there ([Normal]) or left by [sys.exit]. *)
Definition worker_startup (zone host : string) (port : Z) (env : StartupEnv)
  : Worker.t * list LogLine * Control :=
  let worker_id := worker_id_of (pid env) in
  let worker_vehicles :=
    initial_vehicles zone (initial_count_raw env) (initial_draw env) in
  let worker_traffic_light :=
    TrafficLight.init (light_clock env) (ZONE_SIZE / 2) (ZONE_SIZE / 2) in
  let w :=
    Worker.mk (Some zone) worker_id 0 worker_vehicles (Some worker_traffic_light) in
  match find_worker_port (can_bind env) port with
  | None =>
      (w,
       [Line "Worker: Could not find available port to bind its Flask server. Exiting."],
       SysExit 1)
  | Some worker_self_port =>
      let worker_self_url := "http://localhost:" +:+ pretty worker_self_port in
      let master_url := "http://" +:+ host +:+ ":" +:+ pretty port in
      let '(lines, c) :=
        register_with_master worker_id zone master_url worker_self_url
                             (registration_attempt env) 10 in
      let log :=
        Line ("Worker " +:+ worker_id +:+ " (" +:+ zone
              +:+ "): Attempting to register with master at " +:+ master_url +:+ "...")
        :: lines in
      match c with
      | SysExit status => (w, log, SysExit status)
      | Normal =>
          (w,
           log ++ [Line ("Worker " +:+ worker_id +:+ " (" +:+ zone
                         +:+ "): Starting Flask server on localhost:"
                         +:+ pretty worker_self_port);
                   Line ("Worker " +:+ worker_id +:+ " (" +:+ zone
                         +:+ "): Worker ready and listening on port "
                         +:+ pretty worker_self_port
                         +:+ ". Waiting for master commands.")],
           Normal)
      end
  end.

(** ** Runs of worker ticks *)

Record TickInput : Type := mkTickInput {
  tick_draws : Draws;
  tick_clock : Time;
  tick_command : StepCommand.t
}.

Definition worker_tick (w : Worker.t) (i : TickInput) : Worker.t :=
  (worker_simulate_step (tick_draws i) (tick_clock i) (tick_command i) w).1.1.

Definition worker_run (inputs : list TickInput) (w : Worker.t) : Worker.t :=
  foldl worker_tick w inputs.

(** A vehicle whose coordinate on its axis of motion is within
    [bound_min - CAR_SIZE, bound_max + CAR_SIZE]. *)
Definition in_range (v : Vehicle.t) : Prop :=
  (Vehicle.bound_min v - CAR_SIZE <= Vehicle.axis_coord v)%Q
  ∧ (Vehicle.axis_coord v <= Vehicle.bound_max v + CAR_SIZE)%Q.

(** The draws of a start-up all come from [random()], which is in [0, 1]. *)
Definition unit_draws (draw : nat → Direction * Q) : Prop :=
  ∀ i, (0 <= (draw i).2)%Q ∧ ((draw i).2 <= 1)%Q.

(** ** Notions for the master's further properties *)

(** By how much the running total [total_cars_in_sim] exceeds the re-summed
    total. *)
Definition drift (m : Master) : Z :=
  (total_cars_in_sim m - sum_car_counts (registered_workers m))%Z.

(** The master states that occur while the process runs: the module globals
    as initialised, changed by served requests, by coordinator cycles, and by
    the two assignments [master_simulation_loop] makes outside its cycles. *)
Inductive reachable : Master → Prop :=
| reachable_initial : reachable initial_master
| reachable_serve m out a : reachable m → reachable (serve (m, out) a).1
| reachable_cycle m out env : reachable m → reachable (master_cycle env (m, out)).1
| reachable_started m t : reachable m → reachable (set_simulation_start_time m t)
| reachable_stopped m : reachable m → reachable (set_simulation_active m false).


(** The registry and the grid data are consistent: grid data exists only for
    registered zones, and no zone name, url or worker id is empty. *)
Definition registry_well_formed (m : Master) : Prop :=
  (∀ zone,
     is_Some (full_simulation_grid_data m !! zone) →
     is_Some (registered_workers m !! zone))
  ∧ (∀ zone info,
       registered_workers m !! zone = Some info →
       zone ≠ EmptyString
       ∧ WorkerRecord.url info ≠ EmptyString
       ∧ WorkerRecord.id info ≠ EmptyString).

(** ** The older variant kept in [src/performance_test.py] *)

Module PerformanceTest.

(** The registration loop of its [worker_startup] (lines 783-806).  It
    differs from the current one: a request error other than a connection
    error ends the process at once, whatever retries are left. *)
Fixpoint register_with_master (worker_id worker_zone master_url self_url : string)
         (attempt : nat → PostResult) (retries : nat) : list LogLine * Control :=
  match retries with
  | O =>
      ([Line ("Worker " +:+ worker_id
              +:+ ": Failed to register with master after multiple retries. Exiting.")],
       SysExit 1)
  | S n =>
      match attempt retries with
      | PostOk =>
          ([Line ("Worker " +:+ worker_id +:+ " (" +:+ worker_zone
                  +:+ "): Registered successfully with master! My URL: " +:+ self_url)],
           Normal)
      | PostConnectionError =>
          let '(lines, c) :=
            register_with_master worker_id worker_zone master_url self_url attempt n in
          (Line ("Worker " +:+ worker_id +:+ ": Master not reachable at "
                 +:+ master_url +:+ ". Retrying (" +:+ pretty retries +:+ " left)...")
           :: lines, c)
      | PostRequestException e =>
          ([Line ("Worker " +:+ worker_id +:+ ": Error during registration: " +:+ e)],
           SysExit 1)
      end
  end.

End PerformanceTest.

(** ** Sample inputs for the further properties *)

(** A start-up for zone North: 25 initial cars, ports 5100 and 5101 taken,
    and the master answering from the third registration attempt on. *)
Definition north_startup : StartupEnv :=
  mkStartupEnv 4242 5
               (λ i, (if Nat.even i then dirE else dirN, 1 # 2))
               0
               (λ p, (5102 <=? p)%Z)
               (λ k, if k <=? 8 then PostOk else PostConnectionError).

Definition north_worker : Worker.t :=
  (worker_startup "North" "localhost" 5000 north_startup).1.1.

Definition two_ticks : list TickInput :=
  [mkTickInput eager_draws 1 (StepCommand.mk 1 "master_123");
   mkTickInput eager_draws 4 (StepCommand.mk 2 "master_123")].

(** A light that turned red at time 0. *)
Definition red_light : TrafficLight.t := TrafficLight.init 0 100 100.

(** The master after North ([worker_1], 5 cars) and South ([worker_9])
    have registered. *)
Definition two_zones : Master :=
  (register_worker 3
     (RegisterRequest.mk (Some "South") (Some "http://localhost:5101")
                         (Some "worker_9"))
     north_reported).1.1.

Definition south_report (count : Z) : UpdateRequest.t :=
  UpdateRequest.mk (Some "South") (Some count) (Some "worker_9") (Some []) None.

(** A cycle in which every worker call succeeds and nothing is served. *)
Definition all_calls_succeed : CycleEnv :=
  mkCycleEnv 4 (λ _ _ _, mkCallResult [] None) 5.

(** Only North is registered; the wait times out at second 31, two cycles
    run, and the third clock reading is past the 60-second deadline. *)
Definition short_run : LoopEnv :=
  mkLoopEnv 0 0 ((λ t, mkWaitTick (inject_Z t) []) <$> seqZ 0 32)
            [mkCycleTick 32 all_calls_fail [];
             mkCycleTick 33 all_calls_fail [];
             mkCycleTick 61 all_calls_fail []].


(** Two connection errors, then a request error of another kind. *)
Definition refused_after_two : nat → PostResult :=
  λ k, if 4 <=? k then PostConnectionError else PostRequestException "400".

(** * Properties *)

(** ** Comparisons on rationals *)

Lemma gtQ_true (a b : Q) : gtQ a b = true ↔ (b < a)%Q.
Proof.
  unfold gtQ. rewrite negb_true_iff, <- not_true_iff_false, Qle_bool_iff.
  split; [apply Qnot_le_lt | apply Qlt_not_le].
Qed.

Lemma gtQ_false (a b : Q) : gtQ a b = false ↔ (a <= b)%Q.
Proof. unfold gtQ. rewrite negb_false_iff. apply Qle_bool_iff. Qed.

Lemma ltQ_true (a b : Q) : ltQ a b = true ↔ (a < b)%Q.
Proof. apply gtQ_true. Qed.

Lemma ltQ_false (a b : Q) : ltQ a b = false ↔ (b <= a)%Q.
Proof. apply gtQ_false. Qed.

(** ** Vehicle motion *)

Lemma move_direction (v : Vehicle.t) :
  Vehicle.direction (Vehicle.move v) = Vehicle.direction v.
Proof.
  unfold Vehicle.move.
  destruct (Vehicle.zone_bounds v) as [[[min_x min_y] max_x] max_y].
  destruct (Vehicle.direction v) eqn:Hd; simpl; exact Hd.
Qed.

Lemma move_zone_bounds (v : Vehicle.t) :
  Vehicle.zone_bounds (Vehicle.move v) = Vehicle.zone_bounds v.
Proof.
  unfold Vehicle.move.
  destruct (Vehicle.zone_bounds v) as [[[min_x min_y] max_x] max_y] eqn:Hb.
  destruct (Vehicle.direction v); simpl; exact Hb.
Qed.

(** C5. A vehicle whose coordinate on its axis of motion is within
    [bound_min - CAR_SIZE, bound_max + CAR_SIZE] is still within that range
    after one call to [Vehicle.move], whatever its heading; the heading and
    the bounds themselves are left as they were. *)
Theorem move_keeps_axis_coordinate_in_range (v : Vehicle.t) :
  (Vehicle.bound_min v - CAR_SIZE <= Vehicle.axis_coord v)%Q →
  (Vehicle.axis_coord v <= Vehicle.bound_max v + CAR_SIZE)%Q →
  Vehicle.direction (Vehicle.move v) = Vehicle.direction v
  ∧ Vehicle.zone_bounds (Vehicle.move v) = Vehicle.zone_bounds v
  ∧ (Vehicle.bound_min v - CAR_SIZE <= Vehicle.axis_coord (Vehicle.move v))%Q
  ∧ (Vehicle.axis_coord (Vehicle.move v) <= Vehicle.bound_max v + CAR_SIZE)%Q.
Proof.
  intros Hlo Hhi.
  split; [apply move_direction |]. split; [apply move_zone_bounds |].
  destruct v as [x y d [[[min_x min_y] max_x] max_y] i].
  unfold Vehicle.axis_coord, Vehicle.bound_min, Vehicle.bound_max, Vehicle.move in *.
  unfold CAR_SIZE, CAR_SPEED in *.
  destruct d; simpl in *.
  - destruct (gtQ _ _) eqn:Hc; simpl;
      [apply gtQ_true in Hc | apply gtQ_false in Hc]; split; lra.
  - destruct (ltQ _ _) eqn:Hc; simpl;
      [apply ltQ_true in Hc | apply ltQ_false in Hc]; split; lra.
  - destruct (gtQ _ _) eqn:Hc; simpl;
      [apply gtQ_true in Hc | apply gtQ_false in Hc]; split; lra.
  - destruct (ltQ _ _) eqn:Hc; simpl;
      [apply ltQ_true in Hc | apply ltQ_false in Hc]; split; lra.
Qed.

(** ** The bounded history *)

Lemma deque_append_length {A : Type} (maxlen : nat) (x : A) (d : list A) :
  length d ≤ maxlen → length (deque_append maxlen x d) ≤ maxlen.
Proof.
  intros Hd. unfold deque_append.
  destruct (Nat.eqb_spec maxlen 0) as [-> | Hn]; [simpl; lia |].
  destruct (Nat.ltb_spec (length d) maxlen) as [Hlt | Hge].
  - rewrite length_app. simpl. lia.
  - rewrite length_drop, length_app. simpl. lia.
Qed.

(** Appending a run of samples to an empty deque leaves its last [maxlen]
    elements, oldest first. *)
Lemma deque_append_run {A : Type} (maxlen : nat) (samples : list A) :
  maxlen ≠ 0 →
  foldl (λ d x, deque_append maxlen x d) [] samples
  = drop (length samples - maxlen) samples.
Proof.
  intros Hn. induction samples as [| x xs IH] using rev_ind.
  - reflexivity.
  - rewrite foldl_app. simpl. rewrite IH. clear IH.
    unfold deque_append. rewrite length_drop, !length_app. simpl.
    destruct (Nat.eqb_spec maxlen 0) as [? | _]; [contradiction |].
    destruct (Nat.ltb_spec (length xs - (length xs - maxlen)) maxlen) as [Hlt | Hge].
    + replace (length xs - maxlen) with 0 by lia.
      replace (length xs + 1 - maxlen) with 0 by lia.
      reflexivity.
    + rewrite <- drop_app_le by lia. rewrite drop_drop.
      f_equal. lia.
Qed.

(** ** What the request handlers leave alone *)

Lemma register_worker_loop_globals now data m :
  loop_globals (register_worker now data m).1.1 = loop_globals m.
Proof. unfold register_worker. repeat case_match; reflexivity. Qed.

Lemma traffic_update_loop_globals now data m :
  loop_globals (traffic_update now data m).1.1 = loop_globals m.
Proof. unfold traffic_update. repeat case_match; reflexivity. Qed.

Lemma serve_loop_globals st a : loop_globals (serve st a).1 = loop_globals st.1.
Proof.
  destruct st as [m out], a as [now [data | data]]; unfold serve; simpl.
  - pose proof (register_worker_loop_globals now data m) as H.
    destruct (register_worker now data m) as [[m' r] lines]. exact H.
  - pose proof (traffic_update_loop_globals now data m) as H.
    destruct (traffic_update now data m) as [[m' r] lines]. exact H.
Qed.

Lemma serve_all_loop_globals arrivals st :
  loop_globals (serve_all arrivals st).1 = loop_globals st.1.
Proof.
  unfold serve_all. revert st.
  induction arrivals as [| a rest IH]; intros st; simpl; [reflexivity |].
  rewrite IH. apply serve_loop_globals.
Qed.

Lemma loop_globals_step m m' :
  loop_globals m' = loop_globals m → simulation_step m' = simulation_step m.
Proof. unfold loop_globals. congruence. Qed.

Lemma loop_globals_history m m' :
  loop_globals m' = loop_globals m → graph_data_history m' = graph_data_history m.
Proof. unfold loop_globals. congruence. Qed.

Lemma truthy_Some o s : truthy o = Some s → o = Some s.
Proof.
  destruct o as [s' |]; simpl; [| discriminate].
  case_decide; congruence.
Qed.

Lemma register_worker_other_zone now data m zone :
  RegisterRequest.zone data ≠ Some zone →
  registered_workers (register_worker now data m).1.1 !! zone
  = registered_workers m !! zone.
Proof.
  intros Hz. unfold register_worker.
  destruct (truthy (RegisterRequest.zone data)) as [z |] eqn:Ht; [| reflexivity].
  apply truthy_Some in Ht.
  repeat case_match; try reflexivity. simpl.
  apply lookup_insert_ne. congruence.
Qed.

Lemma traffic_update_other_zone now data m zone :
  UpdateRequest.zone data ≠ Some zone →
  registered_workers (traffic_update now data m).1.1 !! zone
  = registered_workers m !! zone.
Proof.
  intros Hz. unfold traffic_update.
  destruct (truthy (UpdateRequest.zone data)) as [z |] eqn:Ht; [| reflexivity].
  apply truthy_Some in Ht.
  repeat case_match; try reflexivity. simpl.
  apply lookup_insert_ne. congruence.
Qed.

Lemma serve_other_zone st a zone :
  request_zone (arrival_request a) ≠ Some zone →
  registered_workers (serve st a).1 !! zone = registered_workers st.1 !! zone.
Proof.
  destruct st as [m out], a as [now [data | data]]; unfold serve; simpl; intros Hz.
  - pose proof (register_worker_other_zone now data m zone Hz) as H.
    destruct (register_worker now data m) as [[m' r] lines]. exact H.
  - pose proof (traffic_update_other_zone now data m zone Hz) as H.
    destruct (traffic_update now data m) as [[m' r] lines]. exact H.
Qed.

Lemma serve_all_other_zone arrivals st zone :
  Forall (λ a, request_zone (arrival_request a) ≠ Some zone) arrivals →
  registered_workers (serve_all arrivals st).1 !! zone
  = registered_workers st.1 !! zone.
Proof.
  unfold serve_all. intros Hall. revert st.
  induction Hall as [| a rest Ha _ IH]; intros st; simpl; [reflexivity |].
  rewrite IH. apply serve_other_zone, Ha.
Qed.

(** ** The fan-out of step commands *)

Lemma call_worker_loop_globals env st item :
  loop_globals (call_worker env st item).1 = loop_globals st.1.
Proof.
  destruct item as [zone info]. unfold call_worker.
  match goal with
  | |- context [serve_all ?l ?s] =>
      pose proof (serve_all_loop_globals l s) as H;
      destruct (serve_all l s) as [m' out']
  end.
  simpl in H. destruct (failure _); exact H.
Qed.

Lemma fan_out_loop_globals env items st :
  loop_globals (foldl (call_worker env) st items).1 = loop_globals st.1.
Proof.
  revert st. induction items as [| item rest IH]; intros st; simpl; [reflexivity |].
  rewrite IH. apply call_worker_loop_globals.
Qed.

Lemma call_worker_other_zone env st item zone :
  silent_about zone env →
  registered_workers (call_worker env st item).1 !! zone
  = registered_workers st.1 !! zone.
Proof.
  intros Hs. destruct item as [z info]. unfold call_worker.
  match goal with
  | |- context [serve_all ?l ?s] =>
      pose proof (serve_all_other_zone l s zone (Hs _ _ _)) as H;
      destruct (serve_all l s) as [m' out']
  end.
  simpl in H. destruct (failure _); exact H.
Qed.

Lemma fan_out_other_zone env items st zone :
  silent_about zone env →
  registered_workers (foldl (call_worker env) st items).1 !! zone
  = registered_workers st.1 !! zone.
Proof.
  intros Hs. revert st.
  induction items as [| item rest IH]; intros st; simpl; [reflexivity |].
  rewrite IH. apply call_worker_other_zone, Hs.
Qed.

(** ** One coordinator cycle *)

(** The master state in which the cycle's fan-out ends. *)
Lemma master_cycle_unfold env m out :
  let st2 := (set_step_start_time (set_simulation_step m (simulation_step m + 1)%Z)
                                  (step_clock env), out) in
  let st3 := foldl (call_worker env) st2 (map_to_list (registered_workers m)) in
  registered_workers (master_cycle env (m, out)).1 = registered_workers st3.1
  ∧ simulation_step (master_cycle env (m, out)).1 = (simulation_step m + 1)%Z
  ∧ graph_data_history (master_cycle env (m, out)).1
    = deque_append HISTORY_MAXLEN
        ((simulation_step m + 1)%Z, sum_car_counts (registered_workers st3.1))
        (graph_data_history m)
  ∧ simulation_active (master_cycle env (m, out)).1 = simulation_active m
  ∧ total_cars_in_sim (master_cycle env (m, out)).1 = total_cars_in_sim st3.1.
Proof.
  intros st2 st3. unfold master_cycle.
  change (registered_workers
            (set_step_start_time (set_simulation_step m (simulation_step m + 1)%Z)
                                 (step_clock env)))
    with (registered_workers m).
  fold st2. fold st3.
  pose proof (fan_out_loop_globals env (map_to_list (registered_workers m)) st2) as Hg.
  fold st3 in Hg. destruct st3 as [m3 out3]. simpl in *.
  unfold loop_globals in Hg. simpl in Hg.
  injection Hg as Hstep Hact _ _ _ Hhist.
  rewrite Hstep, Hhist. auto.
Qed.

Lemma deque_append_last {A : Type} (maxlen : nat) (x : A) (d : list A) :
  maxlen ≠ 0 → last (deque_append maxlen x d) = Some x.
Proof.
  intros Hn. unfold deque_append.
  destruct (Nat.eqb_spec maxlen 0) as [? | _]; [contradiction |].
  destruct (Nat.ltb_spec (length d) maxlen) as [Hlt | Hge].
  - apply last_snoc.
  - rewrite drop_app_le by lia. apply last_snoc.
Qed.

(** ** The re-summed total *)

Lemma sumZ_perm (l k : list Z) : l ≡ₚ k → sumZ l = sumZ k.
Proof.
  unfold sumZ. induction 1; simpl; lia.
Qed.

Lemma sum_car_counts_empty : sum_car_counts ∅ = 0%Z.
Proof. unfold sum_car_counts. rewrite map_to_list_empty. reflexivity. Qed.

Lemma sum_car_counts_insert_fresh (workers : gmap string WorkerRecord.t) zone info :
  workers !! zone = None →
  sum_car_counts (<[zone := info]> workers)
  = (WorkerRecord.car_count info + sum_car_counts workers)%Z.
Proof.
  intros Hz. unfold sum_car_counts.
  rewrite (sumZ_perm _ _ (fmap_Permutation _ _ _ (map_to_list_insert _ _ _ Hz))).
  reflexivity.
Qed.

Lemma sum_car_counts_split (workers : gmap string WorkerRecord.t) zone info :
  workers !! zone = Some info →
  sum_car_counts workers
  = (WorkerRecord.car_count info + sum_car_counts (delete zone workers))%Z.
Proof.
  intros Hz.
  rewrite <- (insert_delete_id workers zone info Hz) at 1.
  apply sum_car_counts_insert_fresh, lookup_delete_eq.
Qed.

Lemma sum_car_counts_insert (workers : gmap string WorkerRecord.t) zone info :
  sum_car_counts (<[zone := info]> workers)
  = (WorkerRecord.car_count info + sum_car_counts (delete zone workers))%Z.
Proof.
  rewrite (sum_car_counts_split (<[zone := info]> workers) zone info)
    by apply lookup_insert_eq.
  by rewrite delete_insert_eq.
Qed.

(** C1. The sample a coordinator cycle appends to the history pairs the new
    step with the sum of [car_count] over every record of the registry as it
    stands when the fan-out is over.  Every registered zone is a summand; a
    zone about which nothing was served during the cycle (its call failed)
    keeps its record, so it enters with its last reported count.  The
    running delta [total_cars_in_sim] is not what is recorded: after a
    re-registration it stays at 5 while the recorded total is 0. *)
Theorem cycle_records_full_resum (env : CycleEnv) (m : Master) (out : list Output) :
  let m' := (master_cycle env (m, out)).1 in
  let total := sum_car_counts (registered_workers m') in
  graph_data_history m'
  = deque_append HISTORY_MAXLEN (simulation_step m', total) (graph_data_history m)
  ∧ last (graph_data_history m') = Some ((simulation_step m + 1)%Z, total)
  ∧ (∀ zone info,
       registered_workers m' !! zone = Some info →
       total = (WorkerRecord.car_count info
                + sum_car_counts (delete zone (registered_workers m')))%Z)
  ∧ (∀ zone,
       silent_about zone env →
       registered_workers m' !! zone = registered_workers m !! zone)
  ∧ total_cars_in_sim north_reregistered = 5%Z
  ∧ last (graph_data_history (master_cycle all_calls_fail (north_reregistered, [])).1)
    = Some (1%Z, 0%Z).
Proof.
  intros m' total.
  destruct (master_cycle_unfold env m out) as (Hreg & Hstep & Hhist & _ & _).
  fold m' in Hreg, Hstep, Hhist.
  assert (Hhist' : graph_data_history m'
            = deque_append HISTORY_MAXLEN (simulation_step m', total)
                           (graph_data_history m)).
  { rewrite Hhist, Hstep. unfold total. by rewrite Hreg. }
  split; [exact Hhist' |]. split.
  { rewrite Hhist', Hstep. by apply deque_append_last. }
  split.
  { intros zone info Hz. by apply sum_car_counts_split. }
  split.
  { intros zone Hs. rewrite Hreg. by apply fan_out_other_zone. }
  split; vm_compute; reflexivity.
Qed.

(** ** The step counter *)

Lemma posted_app out1 out2 : posted (out1 ++ out2) = posted out1 ++ posted out2.
Proof. apply omap_app. Qed.

Lemma posted_printed lines : posted (Printed <$> lines) = [].
Proof. induction lines as [| l rest IH]; [reflexivity | exact IH]. Qed.

Lemma serve_posted st a : posted (serve st a).2 = posted st.2.
Proof.
  destruct st as [m out]. unfold serve.
  destruct (match arrival_request a with
            | RegisterWorker data => register_worker (arrival_time a) data m
            | TrafficUpdate data => traffic_update (arrival_time a) data m
            end) as [[m' r] lines].
  simpl. by rewrite posted_app, posted_printed, app_nil_r.
Qed.

Lemma serve_all_posted arrivals st : posted (serve_all arrivals st).2 = posted st.2.
Proof.
  unfold serve_all. revert st.
  induction arrivals as [| a rest IH]; intros st; simpl; [reflexivity |].
  rewrite IH. apply serve_posted.
Qed.

Lemma call_worker_posted env st item :
  posted (call_worker env st item).2
  = posted st.2
    ++ [(WorkerRecord.url item.2, StepCommand.mk (simulation_step st.1) "master_123")].
Proof.
  destruct item as [zone info]. unfold call_worker.
  match goal with
  | |- context [serve_all ?l ?s] =>
      pose proof (serve_all_posted l s) as H;
      destruct (serve_all l s) as [m' out']
  end.
  simpl in H. rewrite posted_app in H. simpl in H.
  destruct (failure _); simpl; [rewrite posted_app; simpl; rewrite app_nil_r |];
    exact H.
Qed.

Lemma fan_out_posted env items st :
  posted (foldl (call_worker env) st items).2
  = posted st.2
    ++ ((λ item, (WorkerRecord.url item.2,
                  StepCommand.mk (simulation_step st.1) "master_123")) <$> items).
Proof.
  revert st. induction items as [| item rest IH]; intros st; simpl.
  - by rewrite app_nil_r.
  - rewrite IH, call_worker_posted, <- app_assoc. simpl.
    by rewrite (loop_globals_step _ _ (call_worker_loop_globals env st item)).
Qed.

Lemma master_cycle_posted env m out :
  posted (master_cycle env (m, out)).2
  = posted out
    ++ ((λ item, (WorkerRecord.url item.2,
                  StepCommand.mk (simulation_step m + 1)%Z "master_123"))
          <$> map_to_list (registered_workers m)).
Proof.
  unfold master_cycle.
  change (registered_workers
            (set_step_start_time (set_simulation_step m (simulation_step m + 1)%Z)
                                 (step_clock env)))
    with (registered_workers m).
  match goal with
  | |- context [foldl (call_worker env) ?s ?items] =>
      pose proof (fan_out_posted env items s) as H;
      destruct (foldl (call_worker env) s items) as [m3 out3]
  end.
  exact H.
Qed.

Lemma run_cycles_step_monotone end_time ticks st st' :
  run_cycles end_time ticks st = Some st' →
  (simulation_step st.1 ≤ simulation_step st'.1)%Z.
Proof.
  revert st. induction ticks as [| c rest IH]; intros st; simpl.
  - destruct (simulation_active st.1); [discriminate |].
    intros [= <-]. lia.
  - destruct (simulation_active st.1); [| intros [= <-]; lia].
    destruct (before (loop_clock c) end_time); [| intros [= <-]; lia].
    intros Hrun. apply IH in Hrun.
    rewrite (loop_globals_step _ _ (serve_all_loop_globals _ _)) in Hrun.
    destruct st as [m out].
    destruct (master_cycle_unfold (cycle_env c) m out) as (_ & Hstep & _).
    simpl in *. lia.
Qed.

(** C2. A coordinator cycle adds exactly one to the step counter, whatever
    the worker calls do (failures included), and does so before the fan-out:
    every command posted in the cycle already carries the new number.  Later
    cycles never bring the counter below an earlier value.  Serving a request
    (a registration or a report) leaves the master's counter alone, and so
    does the report that a worker's own tick produces: the worker writes only
    its own process's copy. *)
Theorem step_counter_advances_only_in_cycle (env : CycleEnv) (m : Master)
        (out : list Output) :
  simulation_step (master_cycle env (m, out)).1 = (simulation_step m + 1)%Z
  ∧ posted (master_cycle env (m, out)).2
    = posted out
      ++ ((λ item, (WorkerRecord.url item.2,
                    StepCommand.mk (simulation_step m + 1)%Z "master_123"))
            <$> map_to_list (registered_workers m))
  ∧ (∀ a, simulation_step (serve (m, out) a).1 = simulation_step m)
  ∧ (∀ rnd now data w t,
       let '(w', report, _) := worker_simulate_step rnd now data w in
       Worker.simulation_step w' = StepCommand.step data
       ∧ simulation_step (traffic_update t report m).1.1 = simulation_step m)
  ∧ (∀ end_time ticks st',
       run_cycles end_time ticks (m, out) = Some st' →
       (simulation_step m ≤ simulation_step st'.1)%Z).
Proof.
  split; [apply master_cycle_unfold |].
  split; [apply master_cycle_posted |].
  split; [intros a; apply (loop_globals_step _ _ (serve_loop_globals (m, out) a)) |].
  split.
  - intros rnd now data w t. simpl. split; [reflexivity |].
    apply loop_globals_step, traffic_update_loop_globals.
  - intros end_time ticks st'. apply run_cycles_step_monotone.
Qed.

(** ** The history over a run of cycles *)

Lemma master_cycle_sample env st :
  graph_data_history (master_cycle env st).1
  = deque_append HISTORY_MAXLEN (recorded_sample (master_cycle env st).1)
                 (graph_data_history st.1).
Proof.
  destruct st as [m out].
  destruct (master_cycle_unfold env m out) as (Hreg & Hstep & Hhist & _).
  unfold recorded_sample. rewrite Hhist, Hstep, Hreg. reflexivity.
Qed.

Lemma cycle_then_sleep_history st c :
  graph_data_history (cycle_then_sleep st c).1
  = deque_append HISTORY_MAXLEN (recorded_sample (master_cycle (cycle_env c) st).1)
                 (graph_data_history st.1).
Proof.
  unfold cycle_then_sleep.
  rewrite (loop_globals_history _ _ (serve_all_loop_globals _ _)).
  apply master_cycle_sample.
Qed.

Lemma cycle_then_sleep_step st c :
  simulation_step (cycle_then_sleep st c).1 = (simulation_step st.1 + 1)%Z.
Proof.
  unfold cycle_then_sleep.
  rewrite (loop_globals_step _ _ (serve_all_loop_globals _ _)).
  destruct st as [m out]. apply master_cycle_unfold.
Qed.

Lemma after_cycles_history ticks st :
  graph_data_history (after_cycles ticks st).1
  = foldl (λ d x, deque_append HISTORY_MAXLEN x d) (graph_data_history st.1)
          (recorded_sample <$> cycle_ends ticks st).
Proof.
  unfold after_cycles. revert st.
  induction ticks as [| c rest IH]; intros st; simpl; [reflexivity |].
  rewrite IH, cycle_then_sleep_history. reflexivity.
Qed.

Lemma cycle_ends_length ticks st : length (cycle_ends ticks st) = length ticks.
Proof.
  revert st. induction ticks as [| c rest IH]; intros st; simpl; [reflexivity |].
  by rewrite IH.
Qed.

Lemma cycle_ends_steps ticks st :
  simulation_step <$> cycle_ends ticks st
  = (λ i, (simulation_step st.1 + Z.of_nat i)%Z) <$> seq 1 (length ticks).
Proof.
  revert st. induction ticks as [| c rest IH]; intros st; [reflexivity |].
  cbn [cycle_ends length seq fmap list_fmap]. f_equal.
  - destruct st as [m out]. apply master_cycle_unfold.
  - change (simulation_step <$> cycle_ends rest (cycle_then_sleep st c)
            = (λ i, (simulation_step st.1 + Z.of_nat i)%Z) <$> seq 2 (length rest)).
    rewrite IH, cycle_then_sleep_step, <- (fmap_S_seq 1), <- list_fmap_compose.
    apply list_fmap_ext. intros _ i _. simpl. lia.
Qed.

Lemma fold_deque_append_length {A : Type} maxlen (samples d : list A) :
  length d ≤ maxlen →
  length (foldl (λ d x, deque_append maxlen x d) d samples) ≤ maxlen.
Proof.
  revert d. induction samples as [| x xs IH]; intros d Hd; simpl; [exact Hd |].
  by apply IH, deque_append_length.
Qed.

Lemma after_cycles_history_length ticks st :
  length (graph_data_history st.1) ≤ HISTORY_MAXLEN →
  length (graph_data_history (after_cycles ticks st).1) ≤ HISTORY_MAXLEN.
Proof.
  intros Hst. rewrite after_cycles_history.
  by apply fold_deque_append_length.
Qed.

(** The stepping loop stops after some number of its ticks. *)
Lemma run_cycles_prefix end_time ticks st st' :
  run_cycles end_time ticks st = Some st' →
  ∃ k, k ≤ length ticks ∧ st' = after_cycles (take k ticks) st.
Proof.
  revert st. induction ticks as [| c rest IH]; intros st; cbn [run_cycles].
  - destruct (simulation_active st.1); [discriminate |].
    intros [= <-]. exists 0. split; [simpl; lia | reflexivity].
  - destruct (simulation_active st.1);
      [| intros [= <-]; exists 0; split; [lia | reflexivity]].
    destruct (before (loop_clock c) end_time);
      [| intros [= <-]; exists 0; split; [lia | reflexivity]].
    intros Hrun. destruct (IH _ Hrun) as (k & Hk & ->).
    exists (S k). split; [simpl; lia | reflexivity].
Qed.

(** C4. The history never holds more than 100 samples, whether the cycles
    are counted off or run by the loop itself, and eviction is first-in
    first-out: starting from an empty history, after any run of cycles it is
    the last 100 of the samples appended so far, oldest first; after 150
    cycles that is exactly samples 51 to 150, whose step numbers are the 51st
    to the 150th after the starting step. *)
Theorem history_keeps_last_hundred (ticks : list CycleTick) (m : Master)
        (out : list Output) :
  let history := graph_data_history (after_cycles ticks (m, out)).1 in
  let samples := recorded_sample <$> cycle_ends ticks (m, out) in
  (length (graph_data_history m) ≤ 100 → length history ≤ 100)
  ∧ (∀ end_time st',
       length (graph_data_history m) ≤ 100 →
       run_cycles end_time ticks (m, out) = Some st' →
       length (graph_data_history st'.1) ≤ 100)
  ∧ (graph_data_history m = [] →
     length samples = length ticks
     ∧ history = drop (length ticks - 100) samples)
  ∧ (graph_data_history m = [] →
     length ticks = 150 →
     history = drop 50 samples
     ∧ length history = 100
     ∧ history.*1 = (λ i, (simulation_step m + Z.of_nat i)%Z) <$> seq 51 100)
  ∧ (∀ (arbitrary : list (Z * Z)),
       foldl (λ d x, deque_append HISTORY_MAXLEN x d) [] arbitrary
       = drop (length arbitrary - 100) arbitrary).
Proof.
  intros history samples.
  assert (Hlen : length samples = length ticks).
  { unfold samples. by rewrite length_fmap, cycle_ends_length. }
  assert (Hrun : graph_data_history m = [] →
                 history = drop (length ticks - 100) samples).
  { intros Hempty. unfold history. rewrite after_cycles_history. simpl.
    rewrite Hempty. fold samples. rewrite <- Hlen.
    by apply (deque_append_run HISTORY_MAXLEN). }
  split; [apply (after_cycles_history_length ticks (m, out)) |].
  split.
  { intros end_time st' Hm Hloop.
    apply run_cycles_prefix in Hloop as (k & _ & ->).
    by apply (after_cycles_history_length (take k ticks) (m, out)). }
  split; [by auto |]. split.
  - intros Hempty H150. specialize (Hrun Hempty). rewrite H150 in Hrun.
    change (150 - 100) with 50 in Hrun.
    split; [exact Hrun |]. split.
    + rewrite Hrun, length_drop. lia.
    + rewrite Hrun. unfold samples.
      rewrite <- fmap_drop, <- list_fmap_compose.
      change (fst ∘ recorded_sample) with simulation_step.
      rewrite fmap_drop, cycle_ends_steps, H150, <- fmap_drop, drop_seq.
      reflexivity.
  - intros arbitrary. by apply (deque_append_run HISTORY_MAXLEN).
Qed.

(** ** The worker's tick *)

Lemma maybe_spawn_cases rnd worker_id step (vehicles : list Vehicle.t) :
  maybe_spawn rnd worker_id step vehicles = vehicles
  ∨ (length vehicles < MAX_CARS_PER_ZONE
     ∧ ∃ car, maybe_spawn rnd worker_id step vehicles = vehicles ++ [car]).
Proof.
  unfold maybe_spawn.
  destruct (ltQ (spawn_roll rnd) (4 # 10)); simpl; [| by left].
  destruct (Nat.ltb_spec (length vehicles) MAX_CARS_PER_ZONE) as [Hlt | Hge];
    [| by left].
  right. split; [exact Hlt |].
  destruct (spawn_point (spawn_direction rnd)) as [x y]. eauto.
Qed.

Lemma length_delete_le {A : Type} (l : list A) (i : nat) :
  length (delete i l) ≤ length l.
Proof.
  revert i. induction l as [| x l IH]; intros [| i]; simpl; try lia.
  specialize (IH i). lia.
Qed.

Lemma maybe_remove_length rnd (vehicles : list Vehicle.t) :
  length (maybe_remove rnd vehicles) ≤ length vehicles.
Proof.
  unfold maybe_remove.
  destruct (_ && _); [| lia].
  apply length_delete_le.
Qed.

(** C6. A worker tick that starts with at most [MAX_CARS_PER_ZONE] vehicles
    ends with at most that many, and reports the count it ends with.  The
    spawn either leaves the list as it is or appends exactly one vehicle, and
    it appends only when the count is strictly below the capacity. *)
Theorem tick_keeps_zone_within_capacity (rnd : Draws) (now : Time)
        (data : StepCommand.t) (w : Worker.t) :
  length (Worker.worker_vehicles w) ≤ MAX_CARS_PER_ZONE →
  let '(w', report, _) := worker_simulate_step rnd now data w in
  length (Worker.worker_vehicles w') ≤ MAX_CARS_PER_ZONE
  ∧ UpdateRequest.car_count report
    = Some (Z.of_nat (length (Worker.worker_vehicles w')))
  ∧ (∀ worker_id step (vehicles : list Vehicle.t),
       maybe_spawn rnd worker_id step vehicles = vehicles
       ∨ (length vehicles < MAX_CARS_PER_ZONE
          ∧ length (maybe_spawn rnd worker_id step vehicles) = S (length vehicles)
          ∧ ∃ car, maybe_spawn rnd worker_id step vehicles = vehicles ++ [car])).
Proof.
  intros Hcap. simpl. split; [| split; [reflexivity |]].
  - etransitivity; [apply maybe_remove_length |].
    match goal with
    | |- length (maybe_spawn ?r ?i ?s ?v) ≤ _ =>
        destruct (maybe_spawn_cases r i s v) as [-> | (Hlt & car & ->)]
    end.
    + by rewrite length_fmap.
    + rewrite length_app. simpl. lia.
  - intros worker_id step vehicles.
    destruct (maybe_spawn_cases rnd worker_id step vehicles)
      as [Hsame | (Hlt & car & Heq)]; [by left | right].
    split; [exact Hlt |]. split; [| by eauto].
    rewrite Heq, length_app. simpl. lia.
Qed.

(** ** Accepting and rejecting reports *)

Lemma traffic_update_missing now data m :
  truthy (UpdateRequest.zone data) = None
  ∨ UpdateRequest.car_count data = None
  ∨ truthy (UpdateRequest.worker_id data) = None →
  traffic_update now data m
  = (m, mkResponse (error "Missing zone, car_count, or worker_id") 400, []).
Proof.
  unfold traffic_update. intros [H | [H | H]]; rewrite H;
    repeat case_match; reflexivity.
Qed.

Lemma traffic_update_unknown now data m zone count worker_id :
  truthy (UpdateRequest.zone data) = Some zone →
  UpdateRequest.car_count data = Some count →
  truthy (UpdateRequest.worker_id data) = Some worker_id →
  registered_workers m !! zone = None →
  traffic_update now data m
  = (m, mkResponse (error "Worker not registered or ID mismatch") 404,
     [UnknownOrMismatched worker_id zone]).
Proof.
  intros Hz Hc Hw Hreg. unfold traffic_update. by rewrite Hz, Hc, Hw, Hreg.
Qed.

Lemma traffic_update_mismatch now data m zone count worker_id info :
  truthy (UpdateRequest.zone data) = Some zone →
  UpdateRequest.car_count data = Some count →
  truthy (UpdateRequest.worker_id data) = Some worker_id →
  registered_workers m !! zone = Some info →
  WorkerRecord.id info ≠ worker_id →
  traffic_update now data m
  = (m, mkResponse (error "Worker not registered or ID mismatch") 404,
     [UnknownOrMismatched worker_id zone]).
Proof.
  intros Hz Hc Hw Hreg Hid. unfold traffic_update. rewrite Hz, Hc, Hw, Hreg.
  by rewrite decide_False.
Qed.

Lemma traffic_update_accept now data m zone count worker_id info :
  truthy (UpdateRequest.zone data) = Some zone →
  UpdateRequest.car_count data = Some count →
  truthy (UpdateRequest.worker_id data) = Some worker_id →
  registered_workers m !! zone = Some info →
  WorkerRecord.id info = worker_id →
  let zone_data :=
    ZoneData.mk (default [] (UpdateRequest.vehicles data))
                (UpdateRequest.traffic_light data) in
  let info' :=
    WorkerRecord.mk (WorkerRecord.url info) now count (WorkerRecord.id info)
                    zone_data in
  traffic_update now data m
  = (mkMaster (<[zone := info']> (registered_workers m))
              (total_cars_in_sim m + (count - WorkerRecord.car_count info))%Z
              (simulation_step m) (simulation_active m)
              (simulation_start_time m) (step_start_time m) (step_times m)
              (graph_data_history m)
              (<[zone := zone_data]> (full_simulation_grid_data m)),
     mkResponse (message "Update received") 200, []).
Proof.
  intros Hz Hc Hw Hreg Hid. unfold traffic_update. rewrite Hz, Hc, Hw, Hreg.
  by rewrite decide_True.
Qed.

Lemma register_worker_accept now data m zone worker_url worker_id :
  truthy (RegisterRequest.zone data) = Some zone →
  truthy (RegisterRequest.worker_url data) = Some worker_url →
  truthy (RegisterRequest.worker_id data) = Some worker_id →
  register_worker now data m
  = (set_registered_workers m
       (<[zone := WorkerRecord.mk worker_url now 0 worker_id (ZoneData.mk [] None)]>
          (registered_workers m)),
     mkResponse (message ("Worker " +:+ worker_id +:+ " registered successfully")) 200,
     [Registered worker_id zone worker_url]).
Proof. intros Hz Hu Hw. unfold register_worker. by rewrite Hz, Hu, Hw. Qed.

(** C3, as the code has it.  A report lacking a non-empty zone, a car_count
    or a non-empty worker id is answered 400 before the registry is looked
    at.  A report that has all three is answered 404 when its zone is not
    registered or is registered under another worker id; in particular a
    report still carrying the old id after the zone was re-registered under
    a new one is answered 404.  Otherwise it is answered 200, and the zone's
    record then holds the handler's clock reading as last-seen, the reported
    count, and the reported snapshot (the url and the id are kept); the same
    snapshot is stored in the grid data. *)
Theorem report_acceptance (now : Time) (data : UpdateRequest.t) (m : Master) :
  let '(m', response, _) := traffic_update now data m in
  (truthy (UpdateRequest.zone data) = None
   ∨ UpdateRequest.car_count data = None
   ∨ truthy (UpdateRequest.worker_id data) = None →
   status_code response = 400%Z)
  ∧ (∀ zone count worker_id,
       truthy (UpdateRequest.zone data) = Some zone →
       UpdateRequest.car_count data = Some count →
       truthy (UpdateRequest.worker_id data) = Some worker_id →
       (registered_workers m !! zone = None → status_code response = 404%Z)
       ∧ (∀ info,
            registered_workers m !! zone = Some info →
            WorkerRecord.id info ≠ worker_id →
            status_code response = 404%Z)
       ∧ (∀ info,
            registered_workers m !! zone = Some info →
            WorkerRecord.id info = worker_id →
            let zone_data :=
              ZoneData.mk (default [] (UpdateRequest.vehicles data))
                          (UpdateRequest.traffic_light data) in
            status_code response = 200%Z
            ∧ registered_workers m' !! zone
              = Some (WorkerRecord.mk (WorkerRecord.url info) now count
                                      (WorkerRecord.id info) zone_data)
            ∧ full_simulation_grid_data m' !! zone = Some zone_data)
       ∧ (∀ t registration worker_url new_id,
            truthy (RegisterRequest.zone registration) = Some zone →
            truthy (RegisterRequest.worker_url registration) = Some worker_url →
            truthy (RegisterRequest.worker_id registration) = Some new_id →
            new_id ≠ worker_id →
            status_code
              (traffic_update now data (register_worker t registration m).1.1).1.2
            = 404%Z)).
Proof.
  destruct (traffic_update now data m) as [[m' response] lines] eqn:Hrun.
  split.
  { intros Hmiss. rewrite traffic_update_missing in Hrun by exact Hmiss.
    by injection Hrun as <- <- <-. }
  intros zone count worker_id Hz Hc Hw. split; [| split; [| split]].
  - intros Hreg.
    rewrite (traffic_update_unknown _ _ _ _ _ _ Hz Hc Hw Hreg) in Hrun.
    by injection Hrun as <- <- <-.
  - intros info Hreg Hid.
    rewrite (traffic_update_mismatch _ _ _ _ _ _ _ Hz Hc Hw Hreg Hid) in Hrun.
    by injection Hrun as <- <- <-.
  - intros info Hreg Hid zone_data.
    rewrite (traffic_update_accept _ _ _ _ _ _ _ Hz Hc Hw Hreg Hid) in Hrun.
    injection Hrun as <- <- <-. simpl.
    split; [reflexivity |]. split; apply lookup_insert_eq.
  - intros t registration worker_url new_id Hrz Hru Hrw Hne.
    rewrite (register_worker_accept _ _ _ _ _ _ Hrz Hru Hrw). simpl.
    erewrite (traffic_update_mismatch _ _ _ _ _ _ _ Hz Hc Hw);
      [reflexivity | apply lookup_insert_eq | exact Hne].
Qed.

(** C3 as stated fails: a report for a zone that was never registered is
    answered 400, not 404, when it carries no [car_count]. *)
Lemma unregistered_zone_report_answered_400 :
  UpdateRequest.zone report_without_count = Some "North"
  ∧ registered_workers initial_master !! "North" = None
  ∧ status_code (traffic_update 0 report_without_count initial_master).1.2 = 400%Z
  ∧ status_code (traffic_update 0 report_without_count initial_master).1.2 ≠ 404%Z.
Proof. repeat split; vm_compute; congruence. Qed.

(** C9. A report that is not answered 200 (unknown zone, worker id mismatch,
    or a missing field) leaves the master state as it was: every record of
    the registry, the grid data and the running total included. *)
Theorem rejected_report_changes_nothing (now : Time) (data : UpdateRequest.t)
        (m : Master) :
  status_code (traffic_update now data m).1.2 ≠ 200%Z →
  (traffic_update now data m).1.1 = m
  ∧ registered_workers (traffic_update now data m).1.1 = registered_workers m
  ∧ full_simulation_grid_data (traffic_update now data m).1.1
    = full_simulation_grid_data m
  ∧ total_cars_in_sim (traffic_update now data m).1.1 = total_cars_in_sim m.
Proof.
  intros Hrej.
  assert (Hsame : (traffic_update now data m).1.1 = m).
  { revert Hrej. unfold traffic_update.
    repeat case_match; simpl; try reflexivity. intros Hrej. by destruct Hrej. }
  rewrite Hsame. auto.
Qed.

(** C10. A registration that carries a zone, a url and a worker id puts a
    fresh record under the zone, whatever was there: count 0, empty snapshot.
    Other zones keep their records.  The re-summed total, which is also the
    total the stream reports, then counts this zone as 0, so it is the sum
    over the other zones; the zone counts again from its next accepted
    report on. *)
Theorem registration_resets_zone_record (now : Time) (data : RegisterRequest.t)
        (m : Master) (zone worker_url worker_id : string) :
  truthy (RegisterRequest.zone data) = Some zone →
  truthy (RegisterRequest.worker_url data) = Some worker_url →
  truthy (RegisterRequest.worker_id data) = Some worker_id →
  let m' := (register_worker now data m).1.1 in
  registered_workers m' !! zone
  = Some (WorkerRecord.mk worker_url now 0 worker_id (ZoneData.mk [] None))
  ∧ (∀ z, z ≠ zone → registered_workers m' !! z = registered_workers m !! z)
  ∧ sum_car_counts (registered_workers m')
    = sum_car_counts (delete zone (registered_workers m))
  ∧ (∀ info,
       registered_workers m !! zone = Some info →
       sum_car_counts (registered_workers m')
       = (sum_car_counts (registered_workers m) - WorkerRecord.car_count info)%Z)
  ∧ (∀ last payload,
       (generate_data_pass m' last).1 = Some payload →
       Payload.total_cars payload
       = sum_car_counts (delete zone (registered_workers m)))
  ∧ (∀ t report count,
       truthy (UpdateRequest.zone report) = Some zone →
       UpdateRequest.car_count report = Some count →
       truthy (UpdateRequest.worker_id report) = Some worker_id →
       sum_car_counts (registered_workers (traffic_update t report m').1.1)
       = (count + sum_car_counts (delete zone (registered_workers m)))%Z).
Proof.
  intros Hz Hu Hw m'.
  assert (Hm' : registered_workers m'
                = <[zone := WorkerRecord.mk worker_url now 0 worker_id
                                            (ZoneData.mk [] None)]>
                    (registered_workers m)).
  { unfold m'. by rewrite (register_worker_accept _ _ _ _ _ _ Hz Hu Hw). }
  assert (Hsum : sum_car_counts (registered_workers m')
                 = sum_car_counts (delete zone (registered_workers m))).
  { rewrite Hm', sum_car_counts_insert. simpl. lia. }
  split; [rewrite Hm'; apply lookup_insert_eq |].
  split; [intros z Hne; rewrite Hm'; by apply lookup_insert_ne |].
  split; [exact Hsum |]. split; [| split].
  - intros info Hinfo. rewrite Hsum, (sum_car_counts_split _ _ _ Hinfo). lia.
  - intros last payload. unfold generate_data_pass.
    destruct (_ || _); simpl; [| discriminate].
    intros [= <-]. simpl. exact Hsum.
  - intros t report count Hrz Hrc Hrw.
    erewrite (traffic_update_accept _ _ _ _ _ _ _ Hrz Hrc Hrw);
      [| rewrite Hm'; apply lookup_insert_eq | reflexivity].
    simpl. rewrite sum_car_counts_insert, Hm', delete_insert_eq. reflexivity.
Qed.

(** ** The broadcast stream *)

Lemma generate_data_pass_spec (m : Master) (last_step_sent : Z) :
  generate_data_pass m last_step_sent
  = if (last_step_sent <? simulation_step m)%Z then
      (Some (Payload.mk
               (if (last_step_sent =? -1)%Z then initial_data else update)
               (if simulation_active m then "Active" else "Inactive")
               (simulation_step m)
               (sum_car_counts (registered_workers m))
               (size (registered_workers m))
               (graph_data_history m) (full_simulation_grid_data m)
               (worker_details <$> registered_workers m)),
       simulation_step m)
    else (None, last_step_sent).
Proof.
  unfold generate_data_pass.
  destruct (Z.ltb_spec last_step_sent (simulation_step m)) as [Hlt | Hge].
  - replace (simulation_step m >? last_step_sent)%Z with true by (symmetry; lia).
    reflexivity.
  - replace (simulation_step m >? last_step_sent)%Z with false by (symmetry; lia).
    simpl.
    destruct (Z.eqb_spec (simulation_step m) 0) as [H0 | _]; [| reflexivity].
    destruct (Z.eqb_spec last_step_sent (-1)) as [H1 | _]; [lia | reflexivity].
Qed.

Lemma generate_data_from_cons last m rest :
  generate_data_from last (m :: rest)
  = (generate_data_pass m last).1
    :: generate_data_from (generate_data_pass m last).2 rest.
Proof. simpl. by destruct (generate_data_pass m last). Qed.

Lemma later_events_are_updates observed last :
  (0 ≤ last)%Z →
  Forall (λ p, Payload.type p = update) (emitted (generate_data_from last observed)).
Proof.
  revert last. induction observed as [| m rest IH]; intros last Hlast.
  { constructor. }
  rewrite generate_data_from_cons, generate_data_pass_spec.
  destruct (Z.ltb_spec last (simulation_step m)) as [Hlt | Hge]; simpl.
  - constructor; [| apply IH; lia]. simpl.
    destruct (Z.eqb_spec last (-1)); [lia | reflexivity].
  - by apply IH.
Qed.

Lemma emitted_steps_increase observed last :
  StronglySorted Z.lt (Payload.step <$> emitted (generate_data_from last observed))
  ∧ Forall (λ s, (last < s)%Z)
           (Payload.step <$> emitted (generate_data_from last observed)).
Proof.
  revert last. induction observed as [| m rest IH]; intros last.
  { split; constructor. }
  rewrite generate_data_from_cons, generate_data_pass_spec.
  destruct (Z.ltb_spec last (simulation_step m)) as [Hlt | Hge]; simpl.
  - destruct (IH (simulation_step m)) as [Hsorted Hall]. split.
    + by constructor.
    + constructor; [exact Hlt |].
      eapply Forall_impl; [exact Hall |]. simpl. intros s Hs. lia.
  - apply IH.
Qed.

Lemma events_carry_observed_state observed last :
  Forall2 (λ m event, ∀ p, event = Some p → carries_full_state m p)
          observed (generate_data_from last observed).
Proof.
  revert last. induction observed as [| m rest IH]; intros last.
  { constructor. }
  rewrite generate_data_from_cons. constructor; [| apply IH].
  rewrite generate_data_pass_spec.
  destruct (last <? simulation_step m)%Z; simpl; [| discriminate].
  intros p [= <-]. repeat split.
Qed.

(** C7. On one connection: the first event delivered is tagged
    [initial_data] and all later ones [update]; the step numbers of the
    delivered events increase strictly, so after the first one an event goes
    out only when the counter has advanced since the previous one; a pass
    emits exactly when the counter is above [last_step_sent], and otherwise
    emits nothing and keeps [last_step_sent]; on a fresh connection the very
    first pass emits whenever the counter is not negative; and every event
    carries the whole state read by its pass (status, step, re-summed total,
    worker count, full history, full grid data, all worker details). *)
Theorem stream_emits_initial_then_on_advance (observed : list Master) :
  let events := generate_data observed in
  match emitted events with
  | [] => True
  | first :: later =>
      Payload.type first = initial_data
      ∧ Forall (λ p, Payload.type p = update) later
  end
  ∧ StronglySorted Z.lt (Payload.step <$> emitted events)
  ∧ Forall2 (λ m event, ∀ p, event = Some p → carries_full_state m p)
            observed events
  ∧ (∀ m last_step_sent,
       match generate_data_pass m last_step_sent with
       | (Some p, last') =>
           (last_step_sent < simulation_step m)%Z
           ∧ last' = simulation_step m
           ∧ Payload.step p = simulation_step m
           ∧ (Payload.type p = initial_data ↔ last_step_sent = (-1)%Z)
       | (None, last') =>
           (simulation_step m ≤ last_step_sent)%Z ∧ last' = last_step_sent
       end)
  ∧ (∀ m rest,
       (0 ≤ simulation_step m)%Z →
       ∃ p, generate_data (m :: rest)
            = Some p :: generate_data_from (simulation_step m) rest
            ∧ Payload.type p = initial_data).
Proof.
  intros events. split; [| split; [| split; [| split]]].
  - unfold events, generate_data.
    destruct observed as [| m rest]; [exact I |].
    assert (Hgen : ∀ obs, match emitted (generate_data_from (-1) obs) with
                          | [] => True
                          | first :: later =>
                              Payload.type first = initial_data
                              ∧ Forall (λ p, Payload.type p = update) later
                          end).
    { induction obs as [| m0 obs IH]; [exact I |].
      rewrite generate_data_from_cons, generate_data_pass_spec.
      destruct (Z.ltb_spec (-1) (simulation_step m0)) as [Hlt | Hge]; simpl.
      - split; [reflexivity |]. apply later_events_are_updates. lia.
      - exact IH. }
    apply Hgen.
  - apply emitted_steps_increase.
  - apply events_carry_observed_state.
  - intros m last. rewrite generate_data_pass_spec.
    destruct (Z.ltb_spec last (simulation_step m)) as [Hlt | Hge].
    + repeat split; try done; simpl.
      * destruct (Z.eqb_spec last (-1)); [done | discriminate].
      * intros ->. reflexivity.
    + by split.
  - intros m rest Hstep. unfold generate_data.
    rewrite generate_data_from_cons, generate_data_pass_spec.
    destruct (Z.ltb_spec (-1) (simulation_step m)) as [_ | Hge]; [| lia].
    simpl. eauto.
Qed.

(** ** Startup without workers *)

Lemma wait_for_workers_spec start ticks st st' :
  wait_for_workers start ticks st = Some st' →
  loop_globals st'.1 = loop_globals st.1
  ∧ posted st'.2 = posted st.2
  ∧ (size (registered_workers st'.1) < length expected_zones →
     last st'.2
     = Some (Printed (WaitTimedOut (size (registered_workers st'.1))
                                   (length expected_zones)))).
Proof.
  revert st. induction ticks as [| w rest IH]; intros st;
    cbn [wait_for_workers];
    destruct (Nat.ltb_spec (size (registered_workers st.1)) (length expected_zones))
      as [Hlt | Hge].
  - discriminate.
  - intros [= <-]. repeat split. intros Hlt. lia.
  - destruct (gtQ _ _).
    + intros [= <-]. cbn [fst snd]. split; [reflexivity |].
      split; [by rewrite posted_app, app_nil_r |].
      intros _. apply last_snoc.
    + intros Hrun. destruct (IH _ Hrun) as (Hg & Hp & Hl).
      rewrite Hg, Hp, serve_all_loop_globals, serve_all_posted. auto.
  - intros [= <-]. repeat split. intros Hlt. lia.
Qed.

(** C8, as the code has it.  When the registration wait ends with an empty
    registry (which it can only do by timing out), [master_simulation_loop]
    does return, having run no cycle: the step counter and the history are
    as they were (0 and empty from the initial state), no step command has
    been posted, the simulation is marked inactive, and the last line printed
    is the diagnostic.  Control comes back by a plain [return], not by
    [sys.exit]. *)
Theorem no_worker_startup_runs_no_cycle (duration : option Z) (test_mode : bool)
        (env : LoopEnv) (m m1 : Master) (out1 : list Output) :
  startup_wait env m = Some (m1, out1) →
  registered_workers m1 = ∅ →
  ∃ run,
    master_simulation_loop duration test_mode env m = Some run
    ∧ simulation_step (final run) = simulation_step m
    ∧ graph_data_history (final run) = graph_data_history m
    ∧ (m = initial_master →
       simulation_step (final run) = 0%Z ∧ graph_data_history (final run) = [])
    ∧ posted (output run) = []
    ∧ simulation_active (final run) = false
    ∧ Printed (WaitTimedOut 0 4) ∈ output run
    ∧ last (output run)
      = Some (Printed (Line "Master: No workers registered. Exiting simulation."))
    ∧ control run = Normal.
Proof.
  intros Hwait Hempty. unfold master_simulation_loop. rewrite Hwait.
  unfold startup_wait in Hwait.
  apply wait_for_workers_spec in Hwait as (Hg & Hp & Hl). simpl in Hg, Hp, Hl.
  rewrite Hempty, map_size_empty in *. simpl.
  eexists. split; [reflexivity |]. simpl.
  assert (Hstep : simulation_step m1 = simulation_step m)
    by apply (loop_globals_step _ _ Hg).
  assert (Hhist : graph_data_history m1 = graph_data_history m)
    by apply (loop_globals_history _ _ Hg).
  split; [exact Hstep |]. split; [exact Hhist |].
  split; [intros ->; by rewrite Hstep, Hhist |].
  split; [by rewrite posted_app, Hp |].
  split; [reflexivity |].
  split.
  - apply elem_of_app. left.
    specialize (Hl ltac:(lia)). apply last_Some in Hl as [front ->].
    apply elem_of_app. right. apply list_elem_of_singleton. reflexivity.
  - split; [apply last_snoc | reflexivity].
Qed.

(** C8 as stated fails in its last part: with nobody registering, the loop
    hands control back normally, with no exit status at all. *)
Lemma zero_worker_timeout_is_a_plain_return :
  ∃ run,
    master_simulation_loop (Some 60%Z) false nobody_registers initial_master
    = Some run
    ∧ registered_workers (final run) = ∅
    ∧ simulation_step (final run) = 0%Z
    ∧ control run = Normal
    ∧ ¬ ∃ status, status ≠ 0%Z ∧ control run = SysExit status.
Proof.
  eexists. split; [vm_compute; reflexivity |]. simpl.
  repeat split. intros (status & _ & Hexit). discriminate Hexit.
Qed.

(** By contrast, the worker's start-up does exit with status 1 when no
    registration attempt succeeds. *)
Lemma failed_registration_exits_1 worker_id worker_zone master_url self_url
      attempt retries :
  (∀ k, attempt k ≠ PostOk) →
  (register_with_master worker_id worker_zone master_url self_url attempt retries).2
  = SysExit 1.
Proof.
  intros Hfail. induction retries as [| n IH]; simpl; [reflexivity |].
  destruct (attempt (S n)) eqn:Ha; [by destruct (Hfail (S n)) | |];
    destruct (register_with_master _ _ _ _ _ n); exact IH.
Qed.

(** * The theorems at concrete inputs *)

Lemma cycle_records_full_resum_witness :
  silent_about "North" all_calls_fail
  ∧ registered_workers (master_cycle all_calls_fail (north_reported, [])).1 !! "North"
    = registered_workers north_reported !! "North"
  ∧ last (graph_data_history (master_cycle all_calls_fail (north_reported, [])).1)
    = Some ((simulation_step north_reported + 1)%Z,
            sum_car_counts
              (registered_workers (master_cycle all_calls_fail (north_reported, [])).1)).
Proof.
  assert (Hs : silent_about "North" all_calls_fail).
  { intros z worker_url json. simpl. constructor. }
  destruct (cycle_records_full_resum all_calls_fail north_reported [])
    as (_ & Hlast & _ & Hstale & _).
  split; [exact Hs |]. split; [exact (Hstale "North" Hs) | exact Hlast].
Defined.

Lemma step_counter_advances_only_in_cycle_witness :
  ∃ st',
    run_cycles (Some 10%Q) one_cycle_then_deadline (north_reported, []) = Some st'
    ∧ (simulation_step north_reported ≤ simulation_step st'.1)%Z.
Proof.
  destruct (run_cycles (Some 10%Q) one_cycle_then_deadline (north_reported, []))
    as [st' |] eqn:Hrun.
  - exists st'. split; [reflexivity |].
    destruct (step_counter_advances_only_in_cycle all_calls_fail north_reported [])
      as (_ & _ & _ & _ & Hmono).
    exact (Hmono _ _ _ Hrun).
  - vm_compute in Hrun. discriminate Hrun.
Defined.

Lemma report_acceptance_witness :
  truthy (UpdateRequest.zone (north_report "worker_1" 7)) = Some "North"
  ∧ UpdateRequest.car_count (north_report "worker_1" 7) = Some 7%Z
  ∧ truthy (UpdateRequest.worker_id (north_report "worker_1" 7)) = Some "worker_1"
  ∧ (∃ info, registered_workers north_reregistered !! "North" = Some info
             ∧ WorkerRecord.id info ≠ "worker_1")
  ∧ status_code (traffic_update 4 (north_report "worker_1" 7) north_reregistered).1.2
    = 404%Z.
Proof.
  assert (Hreg : registered_workers north_reregistered !! "North"
                 = Some (WorkerRecord.mk "http://localhost:5100" 3 0 "worker_2"
                                         (ZoneData.mk [] None)))
    by (vm_compute; reflexivity).
  assert (Hid : "worker_2" ≠ "worker_1") by discriminate.
  split; [reflexivity |]. split; [reflexivity |]. split; [reflexivity |].
  split; [eexists; split; [exact Hreg | exact Hid] |].
  pose proof (report_acceptance 4 (north_report "worker_1" 7) north_reregistered) as H.
  destruct (traffic_update 4 (north_report "worker_1" 7) north_reregistered)
    as [[m' response] lines].
  destruct H as [_ H].
  destruct (H "North" 7%Z "worker_1" eq_refl eq_refl eq_refl) as (_ & Hmis & _).
  exact (Hmis _ Hreg Hid).
Defined.

Lemma history_keeps_last_hundred_witness :
  graph_data_history north_reported = []
  ∧ length (replicate 150 quiet_tick) = 150
  ∧ length (graph_data_history
              (after_cycles (replicate 150 quiet_tick) (north_reported, [])).1) = 100
  ∧ (graph_data_history
       (after_cycles (replicate 150 quiet_tick) (north_reported, [])).1).*1
    = (λ i, (simulation_step north_reported + Z.of_nat i)%Z) <$> seq 51 100.
Proof.
  destruct (history_keeps_last_hundred (replicate 150 quiet_tick) north_reported [])
    as (_ & _ & _ & H150 & _).
  destruct (H150 eq_refl eq_refl) as (_ & Hlen & Hsteps).
  split; [reflexivity |]. split; [reflexivity |]. split; [exact Hlen | exact Hsteps].
Defined.

Lemma move_keeps_axis_coordinate_in_range_witness :
  (Vehicle.bound_min car_near_edge - CAR_SIZE <= Vehicle.axis_coord car_near_edge)%Q
  ∧ (Vehicle.axis_coord car_near_edge <= Vehicle.bound_max car_near_edge + CAR_SIZE)%Q
  ∧ (Vehicle.bound_min car_near_edge - CAR_SIZE
     <= Vehicle.axis_coord (Vehicle.move car_near_edge))%Q
  ∧ (Vehicle.axis_coord (Vehicle.move car_near_edge)
     <= Vehicle.bound_max car_near_edge + CAR_SIZE)%Q.
Proof.
  assert (Hlo : (Vehicle.bound_min car_near_edge - CAR_SIZE
                 <= Vehicle.axis_coord car_near_edge)%Q)
    by (vm_compute; discriminate).
  assert (Hhi : (Vehicle.axis_coord car_near_edge
                 <= Vehicle.bound_max car_near_edge + CAR_SIZE)%Q)
    by (vm_compute; discriminate).
  destruct (move_keeps_axis_coordinate_in_range car_near_edge Hlo Hhi)
    as (_ & _ & Hlo' & Hhi').
  split; [exact Hlo |]. split; [exact Hhi |]. split; [exact Hlo' | exact Hhi'].
Defined.

Lemma tick_keeps_zone_within_capacity_witness :
  length (Worker.worker_vehicles worker_at_capacity) ≤ MAX_CARS_PER_ZONE
  ∧ length (Worker.worker_vehicles
              (worker_simulate_step eager_draws 0 (StepCommand.mk 1 "master_123")
                                    worker_at_capacity).1.1)
    ≤ MAX_CARS_PER_ZONE.
Proof.
  assert (Hcap : length (Worker.worker_vehicles worker_at_capacity)
                 ≤ MAX_CARS_PER_ZONE)
    by (vm_compute; lia).
  split; [exact Hcap |].
  pose proof (tick_keeps_zone_within_capacity
                eager_draws 0 (StepCommand.mk 1 "master_123")
                worker_at_capacity Hcap) as H.
  destruct (worker_simulate_step eager_draws 0 (StepCommand.mk 1 "master_123")
                                 worker_at_capacity) as [[w' report] response].
  exact (proj1 H).
Defined.

Lemma stream_emits_initial_then_on_advance_witness :
  (0 ≤ simulation_step north_reported)%Z
  ∧ (∃ p, generate_data (north_reported :: tail subscriber_view)
          = Some p :: generate_data_from (simulation_step north_reported)
                                         (tail subscriber_view)
          ∧ Payload.type p = initial_data)
  ∧ StronglySorted Z.lt (Payload.step <$> emitted (generate_data subscriber_view)).
Proof.
  assert (Hstep : (0 ≤ simulation_step north_reported)%Z)
    by (vm_compute; discriminate).
  destruct (stream_emits_initial_then_on_advance subscriber_view)
    as (_ & Hsorted & _ & _ & Hfirst).
  split; [exact Hstep |].
  split; [exact (Hfirst north_reported (tail subscriber_view) Hstep) | exact Hsorted].
Defined.

Lemma no_worker_startup_runs_no_cycle_witness :
  startup_wait nobody_registers initial_master
  = Some (initial_master,
          [Printed (Line "Master: Starting simulation loop...");
           Printed (Line "Master: Waiting for workers to register...");
           Printed (WaitTimedOut 0 4)])
  ∧ registered_workers initial_master = ∅
  ∧ ∃ run,
      master_simulation_loop (Some 60%Z) false nobody_registers initial_master
      = Some run
      ∧ simulation_step (final run) = 0%Z
      ∧ graph_data_history (final run) = []
      ∧ posted (output run) = []
      ∧ control run = Normal.
Proof.
  assert (Hwait : startup_wait nobody_registers initial_master
                  = Some (initial_master,
                          [Printed (Line "Master: Starting simulation loop...");
                           Printed (Line "Master: Waiting for workers to register...");
                           Printed (WaitTimedOut 0 4)]))
    by (vm_compute; reflexivity).
  split; [exact Hwait |]. split; [reflexivity |].
  destruct (no_worker_startup_runs_no_cycle
              (Some 60%Z) false nobody_registers initial_master initial_master _
              Hwait eq_refl)
    as (run & Hrun & _ & _ & Hinit & Hposted & _ & _ & _ & Hcontrol).
  exists run. destruct (Hinit eq_refl) as [Hstep Hhist].
  split; [exact Hrun |]. split; [exact Hstep |]. split; [exact Hhist |].
  split; [exact Hposted | exact Hcontrol].
Defined.

Lemma rejected_report_changes_nothing_witness :
  status_code (traffic_update 4 (north_report "worker_0" 9) north_reported).1.2
  ≠ 200%Z
  ∧ (traffic_update 4 (north_report "worker_0" 9) north_reported).1.1
    = north_reported.
Proof.
  assert (Hrej : status_code
                   (traffic_update 4 (north_report "worker_0" 9) north_reported).1.2
                 ≠ 200%Z)
    by (vm_compute; discriminate).
  split; [exact Hrej |].
  exact (proj1 (rejected_report_changes_nothing
                  4 (north_report "worker_0" 9) north_reported Hrej)).
Defined.

Lemma registration_resets_zone_record_witness :
  truthy (RegisterRequest.zone (north_registration "worker_2")) = Some "North"
  ∧ truthy (RegisterRequest.worker_url (north_registration "worker_2"))
    = Some "http://localhost:5100"
  ∧ truthy (RegisterRequest.worker_id (north_registration "worker_2"))
    = Some "worker_2"
  ∧ WorkerRecord.car_count <$> registered_workers north_reported !! "North"
    = Some 5%Z
  ∧ registered_workers north_reregistered !! "North"
    = Some (WorkerRecord.mk "http://localhost:5100" 3 0 "worker_2"
                            (ZoneData.mk [] None))
  ∧ sum_car_counts (registered_workers north_reregistered)
    = sum_car_counts (delete "North" (registered_workers north_reported)).
Proof.
  destruct (registration_resets_zone_record
              3 (north_registration "worker_2") north_reported
              "North" "http://localhost:5100" "worker_2" eq_refl eq_refl eq_refl)
    as (Hfresh & _ & Hsum & _).
  split; [reflexivity |]. split; [reflexivity |]. split; [reflexivity |].
  split; [vm_compute; reflexivity |]. split; [exact Hfresh | exact Hsum].
Defined.

(** * Further properties of the worker *)

(** ** Vehicles stay in range over whole ticks *)

Lemma move_in_range (v : Vehicle.t) : in_range v → in_range (Vehicle.move v).
Proof.
  unfold in_range.
  destruct v as [x y d [[[min_x min_y] max_x] max_y] i].
  unfold Vehicle.axis_coord, Vehicle.bound_min, Vehicle.bound_max, Vehicle.move.
  unfold CAR_SIZE, CAR_SPEED.
  destruct d; simpl; intros [Hlo Hhi].
  - destruct (gtQ _ _) eqn:Hc; simpl;
      [apply gtQ_true in Hc | apply gtQ_false in Hc]; split; lra.
  - destruct (ltQ _ _) eqn:Hc; simpl;
      [apply ltQ_true in Hc | apply ltQ_false in Hc]; split; lra.
  - destruct (gtQ _ _) eqn:Hc; simpl;
      [apply gtQ_true in Hc | apply gtQ_false in Hc]; split; lra.
  - destruct (ltQ _ _) eqn:Hc; simpl;
      [apply ltQ_true in Hc | apply ltQ_false in Hc]; split; lra.
Qed.

Lemma spawned_car_in_range (d : Direction) (i : string) :
  in_range (Vehicle.mk (spawn_point d).1 (spawn_point d).2 d current_zone_bounds i).
Proof.
  unfold in_range, Vehicle.axis_coord, Vehicle.bound_min, Vehicle.bound_max.
  destruct d; simpl; split; vm_compute; discriminate.
Qed.

Lemma maybe_spawn_in_range rnd worker_id step (vehicles : list Vehicle.t) :
  Forall in_range vehicles →
  Forall in_range (maybe_spawn rnd worker_id step vehicles).
Proof.
  intros Hall. unfold maybe_spawn.
  destruct (_ && _); [| exact Hall].
  pose proof (spawned_car_in_range (spawn_direction rnd)) as Hcar.
  destruct (spawn_point (spawn_direction rnd)) as [x y].
  apply Forall_app. split; [exact Hall |].
  constructor; [apply Hcar | constructor].
Qed.

Lemma maybe_remove_in_range rnd (vehicles : list Vehicle.t) :
  Forall in_range vehicles → Forall in_range (maybe_remove rnd vehicles).
Proof.
  intros Hall. unfold maybe_remove.
  destruct (_ && _); [by apply Forall_delete | exact Hall].
Qed.

Lemma worker_tick_in_range w i :
  Forall in_range (Worker.worker_vehicles w) →
  Forall in_range (Worker.worker_vehicles (worker_tick w i)).
Proof.
  intros Hall. unfold worker_tick, worker_simulate_step. simpl.
  apply maybe_remove_in_range, maybe_spawn_in_range.
  apply Forall_fmap. eapply Forall_impl; [exact Hall |].
  intros v. apply move_in_range.
Qed.

(** Every vehicle of a worker stays within
    [bound_min - CAR_SIZE, bound_max + CAR_SIZE] on its axis of motion over a
    whole tick: the ones already there are moved within it, a spawned one
    starts within it, and the removal only takes one away.  The vehicle states
    reported to the master are those of that same list. *)
Theorem tick_keeps_every_vehicle_in_range (rnd : Draws) (now : Time)
        (data : StepCommand.t) (w : Worker.t) :
  Forall in_range (Worker.worker_vehicles w) →
  let '(w', report, _) := worker_simulate_step rnd now data w in
  Forall in_range (Worker.worker_vehicles w')
  ∧ UpdateRequest.vehicles report
    = Some (Vehicle_get_state <$> Worker.worker_vehicles w').
Proof.
  intros Hall.
  pose proof (worker_tick_in_range w (mkTickInput rnd now data) Hall) as H.
  unfold worker_tick in H. simpl in *. split; [exact H | reflexivity].
Qed.

(** ** How the count changes over a tick *)

Lemma randint_bounds (a b raw : Z) :
  (a ≤ b)%Z → (a ≤ randint a b raw ≤ b)%Z.
Proof.
  intros Hab. unfold randint.
  pose proof (Z.mod_pos_bound raw (b - a + 1)). lia.
Qed.

Lemma maybe_remove_cases rnd (vehicles : list Vehicle.t) :
  maybe_remove rnd vehicles = vehicles
  ∨ (20 < length vehicles
     ∧ S (length (maybe_remove rnd vehicles)) = length vehicles
     ∧ maybe_remove rnd vehicles `sublist_of` vehicles).
Proof.
  unfold maybe_remove.
  destruct (ltQ (removal_roll rnd) (2 # 100)); simpl; [| by left].
  destruct (Nat.ltb_spec 20 (length vehicles)) as [Hlt | Hge]; [| by left].
  right. split; [exact Hlt |]. split; [| apply sublist_delete].
  rewrite length_delete; [lia |].
  apply lookup_lt_is_Some.
  pose proof (randint_bounds 0 (Z.of_nat (length vehicles) - 1)
                             (removal_raw rnd)) as Hr.
  unfold randint in Hr. lia.
Qed.

(** A tick changes the number of vehicles by at most one in either direction.
    It never brings a count of 20 or more below 20, and never lowers a count
    of 20 or less: the removal needs more than 20 vehicles, removes exactly
    one, and its random index is always a valid one. *)
Theorem tick_changes_count_by_at_most_one (rnd : Draws) (now : Time)
        (data : StepCommand.t) (w : Worker.t) :
  let before := length (Worker.worker_vehicles w) in
  let after :=
    length (Worker.worker_vehicles (worker_simulate_step rnd now data w).1.1) in
  before - 1 ≤ after ≤ before + 1
  ∧ (20 ≤ before → 20 ≤ after)
  ∧ (before ≤ 20 → before ≤ after)
  ∧ (∀ vehicles : list Vehicle.t,
       maybe_remove rnd vehicles = vehicles
       ∨ (20 < length vehicles
          ∧ S (length (maybe_remove rnd vehicles)) = length vehicles
          ∧ maybe_remove rnd vehicles `sublist_of` vehicles)).
Proof.
  intros before after. unfold after, before. simpl.
  match goal with
  | |- context [maybe_spawn ?r ?i ?s ?v] =>
      pose proof (maybe_spawn_cases r i s v) as Hspawn;
      pose proof (maybe_remove_cases rnd (maybe_spawn r i s v)) as Hremove;
      assert (Hmoved : length v = length (Worker.worker_vehicles w))
        by apply length_fmap;
      set (spawned := maybe_spawn r i s v) in *
  end.
  assert (Hs : length spawned = length (Worker.worker_vehicles w)
               ∨ length spawned = S (length (Worker.worker_vehicles w))).
  { destruct Hspawn as [Heq | (_ & car & Heq)]; rewrite Heq.
    - by left.
    - right. rewrite length_app. simpl. lia. }
  split; [| split; [| split; [| apply maybe_remove_cases]]].
  - destruct Hremove as [-> | (Hgt & Hlen & _)]; lia.
  - destruct Hremove as [-> | (Hgt & Hlen & _)]; lia.
  - destruct Hremove as [-> | (Hgt & Hlen & _)]; lia.
Qed.

Lemma worker_tick_count w i :
  20 ≤ length (Worker.worker_vehicles w) ≤ MAX_CARS_PER_ZONE →
  20 ≤ length (Worker.worker_vehicles (worker_tick w i)) ≤ MAX_CARS_PER_ZONE.
Proof.
  intros [Hlo Hhi]. unfold worker_tick, worker_simulate_step. simpl.
  match goal with
  | |- context [maybe_spawn ?r ?wid ?s ?v] =>
      pose proof (maybe_spawn_cases r wid s v) as Hspawn;
      pose proof (maybe_remove_cases r (maybe_spawn r wid s v)) as Hremove;
      assert (Hmoved : length v = length (Worker.worker_vehicles w))
        by apply length_fmap;
      set (spawned := maybe_spawn r wid s v) in *
  end.
  assert (Hs : 20 ≤ length spawned ≤ MAX_CARS_PER_ZONE).
  { destruct Hspawn as [Heq | (Hlt & car & Heq)]; rewrite Heq.
    - lia.
    - rewrite length_app. simpl. lia. }
  destruct Hremove as [-> | (Hgt & Hlen & _)]; unfold MAX_CARS_PER_ZONE in *; lia.
Qed.

(** ** The worker's life from start-up on *)

Lemma initial_vehicles_length zone count_raw draw :
  20 ≤ length (initial_vehicles zone count_raw draw) ≤ 35.
Proof.
  unfold initial_vehicles. rewrite length_fmap, length_seq.
  pose proof (randint_bounds 20 35 count_raw). lia.
Qed.

Lemma initial_car_in_range (d : Direction) (u : Q) (i : string) :
  (0 <= u)%Q → (u <= 1)%Q →
  in_range (Vehicle.mk (initial_position d u).1 (initial_position d u).2 d
                       current_zone_bounds i).
Proof.
  intros H0 H1.
  unfold in_range, Vehicle.axis_coord, Vehicle.bound_min, Vehicle.bound_max.
  unfold initial_position, uniform, current_zone_bounds, ZONE_SIZE, CAR_SIZE.
  destruct d; simpl; split; lra.
Qed.

Lemma initial_vehicles_in_range zone count_raw draw :
  unit_draws draw → Forall in_range (initial_vehicles zone count_raw draw).
Proof.
  intros Hdraw. unfold initial_vehicles.
  apply Forall_fmap, Forall_forall. intros i _. simpl.
  destruct (Hdraw i) as [H0 H1].
  pose proof (initial_car_in_range (draw i).1 (draw i).2
                ("car_" +:+ zone +:+ "_" +:+ pretty i) H0 H1) as Hcar.
  destruct (draw i) as [d u]. simpl in *.
  destruct (initial_position d u) as [x y]. exact Hcar.
Qed.

Lemma worker_startup_state zone host port env :
  (worker_startup zone host port env).1.1
  = Worker.mk (Some zone) (worker_id_of (pid env)) 0
      (initial_vehicles zone (initial_count_raw env) (initial_draw env))
      (Some (TrafficLight.init (light_clock env) (ZONE_SIZE / 2) (ZONE_SIZE / 2))).
Proof.
  unfold worker_startup.
  destruct (find_worker_port _ _); [| reflexivity].
  destruct (register_with_master _ _ _ _ _ _) as [lines [| status]]; reflexivity.
Qed.

(** From start-up on, whatever the random source and the commands are, a
    worker always holds between 20 and 80 vehicles, all of them within
    [bound_min - CAR_SIZE, bound_max + CAR_SIZE] on their axis of motion: it
    starts with 20 to 35 cars placed on the roads, and every tick keeps both
    bounds. *)
Theorem worker_population_stays_in_bounds (zone host : string) (port : Z)
        (env : StartupEnv) (inputs : list TickInput) :
  unit_draws (initial_draw env) →
  let started := (worker_startup zone host port env).1.1 in
  let w := worker_run inputs started in
  20 ≤ length (Worker.worker_vehicles started) ≤ 35
  ∧ 20 ≤ length (Worker.worker_vehicles w) ≤ MAX_CARS_PER_ZONE
  ∧ Forall in_range (Worker.worker_vehicles w).
Proof.
  intros Hdraw started w.
  assert (Hstart : 20 ≤ length (Worker.worker_vehicles started) ≤ 35).
  { unfold started. rewrite worker_startup_state. apply initial_vehicles_length. }
  assert (Hrange : Forall in_range (Worker.worker_vehicles started)).
  { unfold started. rewrite worker_startup_state.
    by apply initial_vehicles_in_range. }
  split; [exact Hstart |].
  assert (Hcount : 20 ≤ length (Worker.worker_vehicles started) ≤ MAX_CARS_PER_ZONE)
    by (unfold MAX_CARS_PER_ZONE; lia).
  clear Hstart. unfold w, worker_run. clear w. clearbody started.
  revert started Hcount Hrange.
  induction inputs as [| i rest IH]; intros w0 Hcount Hrange; simpl.
  - by split.
  - apply IH; [by apply worker_tick_count | by apply worker_tick_in_range].
Qed.

(** ** The traffic light *)

(** [TrafficLight.update] never moves the light nor changes its cycle time.
    It flips the colour exactly when more than [cycle_time] has passed since
    the last change, and then records the time of the flip; otherwise the
    light is untouched.  After a flip, an update no more than [cycle_time]
    later does nothing, so a colour lasts at least one cycle time. *)
Theorem light_flips_only_after_cycle_time (now : Time) (l : TrafficLight.t) :
  let l' := TrafficLight.update now l in
  TrafficLight.x l' = TrafficLight.x l
  ∧ TrafficLight.y l' = TrafficLight.y l
  ∧ TrafficLight.cycle_time l' = TrafficLight.cycle_time l
  ∧ (TrafficLight.state l' ≠ TrafficLight.state l
     ↔ (TrafficLight.cycle_time l < now - TrafficLight.last_change_time l)%Q)
  ∧ (TrafficLight.state l' ≠ TrafficLight.state l →
     TrafficLight.last_change_time l' = now)
  ∧ (TrafficLight.state l' = TrafficLight.state l → l' = l)
  ∧ (∀ later,
       TrafficLight.state l' ≠ TrafficLight.state l →
       (later - now <= TrafficLight.cycle_time l)%Q →
       TrafficLight.update later l' = l').
Proof.
  intros l'. unfold l', TrafficLight.update.
  destruct (gtQ (now - TrafficLight.last_change_time l) (TrafficLight.cycle_time l))
    eqn:Hc; [apply gtQ_true in Hc | apply gtQ_false in Hc]; simpl.
  - split; [reflexivity |]. split; [reflexivity |]. split; [reflexivity |].
    assert (Hflip : (match TrafficLight.state l with
                     | red => green
                     | green => red
                     end) ≠ TrafficLight.state l)
      by (destruct (TrafficLight.state l); discriminate).
    split; [by split |]. split; [reflexivity |].
    split; [intros Hsame; by destruct Hflip |].
    intros later _ Hlater. apply gtQ_false in Hlater. by rewrite Hlater.
  - split; [reflexivity |]. split; [reflexivity |]. split; [reflexivity |].
    split; [split; [intros Hne; by destruct Hne
                   | intros Hlt; by apply Qle_not_lt in Hc] |].
    split; [intros Hne; by destruct Hne |].
    split; [reflexivity |].
    intros later Hne. by destruct Hne.
Qed.

Lemma worker_tick_identity w i :
  Worker.worker_zone (worker_tick w i) = Worker.worker_zone w
  ∧ Worker.worker_id (worker_tick w i) = Worker.worker_id w.
Proof. by split. Qed.

Lemma worker_run_identity inputs w :
  Worker.worker_zone (worker_run inputs w) = Worker.worker_zone w
  ∧ Worker.worker_id (worker_run inputs w) = Worker.worker_id w.
Proof.
  unfold worker_run. revert w.
  induction inputs as [| i rest IH]; intros w; simpl; [by split |].
  destruct (IH (worker_tick w i)) as [-> ->]. apply worker_tick_identity.
Qed.

(** ** The worker's port *)


(** ** Registration retries *)

Lemma register_with_master_spec worker_id worker_zone master_url self_url
      attempt retries :
  let result :=
    register_with_master worker_id worker_zone master_url self_url attempt retries in
  (result.2 = Normal ↔ ∃ k, 1 ≤ k ≤ retries ∧ attempt k = PostOk)
  ∧ (result.2 = Normal ∨ result.2 = SysExit 1)
  ∧ 1 ≤ length result.1 ≤ retries + 1
  ∧ (result.2 = SysExit 1 → length result.1 = retries + 1).
Proof.
  induction retries as [| n IH]; simpl.
  - split; [| split; [by right | split; [lia | done]]].
    split; [discriminate | intros (k & Hk & _); lia].
  - destruct IH as (Hiff & Hcases & Hlen & Hexit).
    destruct (attempt (S n)) eqn:Ha.
    + simpl. split; [| split; [by left | split; [lia | discriminate]]].
      split; [| done]. intros _. exists (S n). split; [lia | exact Ha].
    + destruct (register_with_master _ _ _ _ _ n) as [lines c]. simpl in *.
      split; [| split; [exact Hcases | split; [lia | intros Hc; rewrite Hexit; [lia | exact Hc]]]].
      rewrite Hiff. split.
      * intros (k & Hk & Hok). exists k. split; [lia | exact Hok].
      * intros (k & Hk & Hok). exists k. split; [| exact Hok].
        destruct (decide (k = S n)) as [-> |]; [congruence | lia].
    + destruct (register_with_master _ _ _ _ _ n) as [lines c]. simpl in *.
      split; [| split; [exact Hcases | split; [lia | intros Hc; rewrite Hexit; [lia | exact Hc]]]].
      rewrite Hiff. split.
      * intros (k & Hk & Hok). exists k. split; [lia | exact Hok].
      * intros (k & Hk & Hok). exists k. split; [| exact Hok].
        destruct (decide (k = S n)) as [-> |]; [congruence | lia].
Qed.

(** The registration loop ends normally exactly when one of its at most
    [retries] attempts succeeds, and otherwise leaves by [sys.exit(1)]; a
    connection error and any other request error both cost one retry.  It
    prints one line per attempt made, plus the final failure line when every
    attempt failed. *)
Theorem registration_succeeds_iff_an_attempt_does
        (worker_id worker_zone master_url self_url : string)
        (attempt : nat → PostResult) (retries : nat) :
  let '(lines, c) :=
    register_with_master worker_id worker_zone master_url self_url attempt retries in
  (c = Normal ↔ ∃ k, 1 ≤ k ≤ retries ∧ attempt k = PostOk)
  ∧ (c = Normal ∨ c = SysExit 1)
  ∧ 1 ≤ length lines ≤ retries + 1
  ∧ (c = SysExit 1 → length lines = retries + 1).
Proof.
  pose proof (register_with_master_spec worker_id worker_zone master_url self_url
                                        attempt retries) as H.
  destruct (register_with_master _ _ _ _ _ _) as [lines c]. exact H.
Qed.


(** ** A started worker and the master *)

Lemma truthy_nonempty (s : string) : s ≠ EmptyString → truthy (Some s) = Some s.
Proof. intros Hs. simpl. by rewrite decide_False. Qed.

Lemma worker_id_of_truthy (pid : Z) :
  truthy (Some (worker_id_of pid)) = Some (worker_id_of pid).
Proof. apply truthy_nonempty. unfold worker_id_of. simpl. discriminate. Qed.

(** A worker started for a non-empty zone sends a registration the master
    accepts, which records the worker's id and url under the zone.  From then
    on, as long as the zone's record still carries this worker's id, the
    report of every tick is accepted, and the master then holds exactly the
    worker's vehicle count and snapshot for the zone. *)
Theorem started_worker_reports_are_accepted (zone host : string) (port : Z)
        (env : StartupEnv) (p : Z) (t : Time) (m : Master) :
  zone ≠ EmptyString →
  let started := (worker_startup zone host port env).1.1 in
  let '(m1, response, _) :=
    register_worker t (registration_request zone (pid env) p) m in
  status_code response = 200%Z
  ∧ registered_workers m1 !! zone
    = Some (WorkerRecord.mk ("http://localhost:" +:+ pretty p) t 0
                            (worker_id_of (pid env)) (ZoneData.mk [] None))
  ∧ (∀ inputs rnd now data t' m2 info,
       registered_workers m2 !! zone = Some info →
       WorkerRecord.id info = worker_id_of (pid env) →
       let '(w', report, _) :=
         worker_simulate_step rnd now data (worker_run inputs started) in
       let '(m3, response', _) := traffic_update t' report m2 in
       let zone_data :=
         ZoneData.mk (Vehicle_get_state <$> Worker.worker_vehicles w')
                     (TrafficLight.get_state <$> Worker.worker_traffic_light w') in
       status_code response' = 200%Z
       ∧ registered_workers m3 !! zone
         = Some (WorkerRecord.mk (WorkerRecord.url info) t'
                   (Z.of_nat (length (Worker.worker_vehicles w')))
                   (WorkerRecord.id info) zone_data)
       ∧ full_simulation_grid_data m3 !! zone = Some zone_data).
Proof.
  intros Hzone started.
  rewrite (register_worker_accept t _ m zone ("http://localhost:" +:+ pretty p)
                                  (worker_id_of (pid env)));
    [| by apply truthy_nonempty | by apply truthy_nonempty
     | apply worker_id_of_truthy].
  split; [reflexivity |]. split; [apply lookup_insert_eq |].
  intros inputs rnd now data t' m2 info Hinfo Hid.
  assert (Hz : Worker.worker_zone (worker_run inputs started) = Some zone).
  { rewrite (proj1 (worker_run_identity inputs started)).
    unfold started. by rewrite worker_startup_state. }
  assert (Hw : Worker.worker_id (worker_run inputs started)
               = worker_id_of (pid env)).
  { rewrite (proj2 (worker_run_identity inputs started)).
    unfold started. by rewrite worker_startup_state. }
  destruct (worker_simulate_step rnd now data (worker_run inputs started))
    as [[w' report] ack] eqn:Htick.
  unfold worker_simulate_step in Htick. injection Htick as <- <- _.
  simpl. rewrite Hz, Hw.
  erewrite (traffic_update_accept t' _ m2 zone _ (worker_id_of (pid env)) info);
    [| by apply truthy_nonempty | reflexivity | apply worker_id_of_truthy
     | exact Hinfo | exact Hid].
  simpl. split; [reflexivity |]. split; apply lookup_insert_eq.
Qed.

(** * Further properties of the master *)

(** ** Registration *)

(** A registration lacking a zone, a url or a worker id (absent or empty) is
    answered 400 and changes nothing; every other registration is answered
    200.  Either way only the registry can change: the grid data shown to
    subscribers, the running total, the step counter and the history are
    left alone, so after a re-registration the grid data still holds the
    zone's previous snapshot. *)
Theorem registration_touches_only_the_registry (now : Time)
        (data : RegisterRequest.t) (m : Master) :
  let '(m', response, _) := register_worker now data m in
  full_simulation_grid_data m' = full_simulation_grid_data m
  ∧ total_cars_in_sim m' = total_cars_in_sim m
  ∧ loop_globals m' = loop_globals m
  ∧ (truthy (RegisterRequest.zone data) = None
     ∨ truthy (RegisterRequest.worker_url data) = None
     ∨ truthy (RegisterRequest.worker_id data) = None
     ↔ status_code response = 400%Z)
  ∧ (status_code response = 400%Z → m' = m)
  ∧ (status_code response = 400%Z ∨ status_code response = 200%Z).
Proof.
  unfold register_worker.
  destruct (truthy (RegisterRequest.zone data)) as [zone |];
    destruct (truthy (RegisterRequest.worker_url data)) as [worker_url |];
    destruct (truthy (RegisterRequest.worker_id data)) as [worker_id |];
    simpl; repeat split; try done; try (intros [? | [? | ?]]; done); auto.
Qed.

(** ** The running total against the re-summed total *)

Lemma traffic_update_drift now data m :
  drift (traffic_update now data m).1.1 = drift m.
Proof.
  unfold traffic_update.
  destruct (truthy (UpdateRequest.zone data)) as [zone |]; [| reflexivity].
  destruct (UpdateRequest.car_count data) as [count |]; [| reflexivity].
  destruct (truthy (UpdateRequest.worker_id data)) as [worker_id |]; [| reflexivity].
  destruct (registered_workers m !! zone) as [info |] eqn:Hinfo; [| reflexivity].
  case_decide; [| reflexivity].
  unfold drift. simpl.
  rewrite sum_car_counts_insert, (sum_car_counts_split _ _ _ Hinfo). simpl. lia.
Qed.

(** Reports never change the difference between the running total
    [total_cars_in_sim] and the re-summed total, whether accepted or not.  An
    accepted registration raises that difference by exactly the count the
    zone's previous record held (by nothing for a zone not yet registered),
    because it resets the record to 0 without touching the running total. *)
Theorem running_total_drifts_only_on_reregistration (now : Time) (m : Master) :
  (∀ data, drift (traffic_update now data m).1.1 = drift m)
  ∧ (∀ data zone,
       truthy (RegisterRequest.zone data) = Some zone →
       status_code (register_worker now data m).1.2 = 200%Z →
       drift (register_worker now data m).1.1
       = (drift m
          + default 0%Z (WorkerRecord.car_count <$> registered_workers m !! zone))%Z).
Proof.
  split; [intros data; apply traffic_update_drift |].
  intros data zone Hz. unfold register_worker. rewrite Hz.
  destruct (truthy (RegisterRequest.worker_url data)) as [worker_url |];
    [| discriminate].
  destruct (truthy (RegisterRequest.worker_id data)) as [worker_id |];
    [| discriminate].
  intros _. unfold drift. simpl. rewrite sum_car_counts_insert. simpl.
  destruct (registered_workers m !! zone) as [info |] eqn:Hinfo; simpl.
  - rewrite (sum_car_counts_split _ _ _ Hinfo). lia.
  - rewrite delete_id by exact Hinfo. lia.
Qed.

(** ** Reports supersede and commute *)

Lemma traffic_update_accepted_inv now data m :
  status_code (traffic_update now data m).1.2 = 200%Z →
  ∃ zone count worker_id info,
    truthy (UpdateRequest.zone data) = Some zone
    ∧ UpdateRequest.car_count data = Some count
    ∧ truthy (UpdateRequest.worker_id data) = Some worker_id
    ∧ registered_workers m !! zone = Some info
    ∧ WorkerRecord.id info = worker_id.
Proof.
  unfold traffic_update.
  destruct (truthy (UpdateRequest.zone data)) as [zone |]; [| discriminate].
  destruct (UpdateRequest.car_count data) as [count |]; [| discriminate].
  destruct (truthy (UpdateRequest.worker_id data)) as [worker_id |]; [| discriminate].
  destruct (registered_workers m !! zone) as [info |] eqn:Hinfo; [| discriminate].
  case_decide; [| discriminate].
  intros _. by exists zone, count, worker_id, info.
Qed.

(** Of two reports accepted for the same zone, only the later one leaves a
    trace: the master ends in the state it would be in had the earlier report
    never arrived.  Snapshots are replaced wholesale, never merged, and the
    running total telescopes. *)
Theorem later_report_supersedes_earlier (t1 t2 : Time)
        (d1 d2 : UpdateRequest.t) (m : Master) :
  truthy (UpdateRequest.zone d1) = truthy (UpdateRequest.zone d2) →
  status_code (traffic_update t1 d1 m).1.2 = 200%Z →
  status_code (traffic_update t2 d2 m).1.2 = 200%Z →
  (traffic_update t2 d2 (traffic_update t1 d1 m).1.1).1.1
  = (traffic_update t2 d2 m).1.1.
Proof.
  intros Hzone Ha1 Ha2.
  apply traffic_update_accepted_inv in Ha1
    as (z1 & c1 & w1 & info1 & Hz1 & Hc1 & Hw1 & Hi1 & Hid1).
  apply traffic_update_accepted_inv in Ha2
    as (z2 & c2 & w2 & info2 & Hz2 & Hc2 & Hw2 & Hi2 & Hid2).
  assert (z1 = z2) as -> by congruence.
  assert (info1 = info2) as -> by congruence.
  rewrite (traffic_update_accept t1 d1 m z2 c1 w1 info2 Hz1 Hc1 Hw1 Hi1 Hid1).
  rewrite (traffic_update_accept t2 d2 m z2 c2 w2 info2 Hz2 Hc2 Hw2 Hi2 Hid2).
  simpl.
  erewrite (traffic_update_accept t2 d2 _ z2 c2 w2 _ Hz2 Hc2 Hw2);
    [| simpl; apply lookup_insert_eq | exact Hid2].
  simpl. rewrite !insert_insert_eq. f_equal. lia.
Qed.

(** Two reports accepted for different zones commute: the master ends in the
    same state whichever of them is served first. *)
Theorem reports_of_different_zones_commute (t1 t2 : Time)
        (d1 d2 : UpdateRequest.t) (m : Master) :
  truthy (UpdateRequest.zone d1) ≠ truthy (UpdateRequest.zone d2) →
  status_code (traffic_update t1 d1 m).1.2 = 200%Z →
  status_code (traffic_update t2 d2 m).1.2 = 200%Z →
  (traffic_update t2 d2 (traffic_update t1 d1 m).1.1).1.1
  = (traffic_update t1 d1 (traffic_update t2 d2 m).1.1).1.1.
Proof.
  intros Hzone Ha1 Ha2.
  apply traffic_update_accepted_inv in Ha1
    as (z1 & c1 & w1 & info1 & Hz1 & Hc1 & Hw1 & Hi1 & Hid1).
  apply traffic_update_accepted_inv in Ha2
    as (z2 & c2 & w2 & info2 & Hz2 & Hc2 & Hw2 & Hi2 & Hid2).
  assert (Hne : z1 ≠ z2) by congruence.
  rewrite (traffic_update_accept t1 d1 m z1 c1 w1 info1 Hz1 Hc1 Hw1 Hi1 Hid1).
  rewrite (traffic_update_accept t2 d2 m z2 c2 w2 info2 Hz2 Hc2 Hw2 Hi2 Hid2).
  simpl.
  erewrite (traffic_update_accept t2 d2 _ z2 c2 w2 info2 Hz2 Hc2 Hw2);
    [| simpl; by rewrite lookup_insert_ne | exact Hid2].
  erewrite (traffic_update_accept t1 d1 _ z1 c1 w1 info1 Hz1 Hc1 Hw1);
    [| simpl; by rewrite lookup_insert_ne | exact Hid1].
  simpl. f_equal; [by apply insert_insert_ne | lia | by apply insert_insert_ne].
Qed.

(** ** Workers are never dropped *)

Lemma register_worker_registry now data m :
  registered_workers (register_worker now data m).1.1 = registered_workers m
  ∨ ∃ zone info,
      registered_workers (register_worker now data m).1.1
      = <[zone := info]> (registered_workers m).
Proof.
  unfold register_worker. repeat case_match; simpl; eauto.
Qed.

Lemma traffic_update_registry now data m :
  registered_workers (traffic_update now data m).1.1 = registered_workers m
  ∨ ∃ zone info,
      registered_workers (traffic_update now data m).1.1
      = <[zone := info]> (registered_workers m).
Proof.
  unfold traffic_update. repeat case_match; simpl; eauto.
Qed.

Lemma serve_registry st a :
  registered_workers (serve st a).1 = registered_workers st.1
  ∨ ∃ zone info,
      registered_workers (serve st a).1 = <[zone := info]> (registered_workers st.1).
Proof.
  destruct st as [m out], a as [now [data | data]]; unfold serve; simpl.
  - pose proof (register_worker_registry now data m) as H.
    destruct (register_worker now data m) as [[m' r] lines]. exact H.
  - pose proof (traffic_update_registry now data m) as H.
    destruct (traffic_update now data m) as [[m' r] lines]. exact H.
Qed.

Lemma serve_keeps_registered st a zone :
  is_Some (registered_workers st.1 !! zone) →
  is_Some (registered_workers (serve st a).1 !! zone).
Proof.
  intros Hz. destruct (serve_registry st a) as [-> | (z & info & ->)];
    [exact Hz |].
  rewrite lookup_insert. by case_decide.
Qed.

Lemma serve_all_keeps_registered arrivals st zone :
  is_Some (registered_workers st.1 !! zone) →
  is_Some (registered_workers (serve_all arrivals st).1 !! zone).
Proof.
  unfold serve_all. revert st.
  induction arrivals as [| a rest IH]; intros st Hz; simpl; [exact Hz |].
  by apply IH, serve_keeps_registered.
Qed.

Lemma call_worker_keeps_registered env st item zone :
  is_Some (registered_workers st.1 !! zone) →
  is_Some (registered_workers (call_worker env st item).1 !! zone).
Proof.
  intros Hz. destruct item as [z info]. unfold call_worker.
  match goal with
  | |- context [serve_all ?l ?s] =>
      pose proof (serve_all_keeps_registered l s zone Hz) as H;
      destruct (serve_all l s) as [m' out']
  end.
  simpl in H. by destruct (failure _).
Qed.

Lemma fan_out_keeps_registered env items st zone :
  is_Some (registered_workers st.1 !! zone) →
  is_Some (registered_workers (foldl (call_worker env) st items).1 !! zone).
Proof.
  revert st. induction items as [| item rest IH]; intros st Hz; simpl; [exact Hz |].
  by apply IH, call_worker_keeps_registered.
Qed.

Lemma master_cycle_keeps_registered env st zone :
  is_Some (registered_workers st.1 !! zone) →
  is_Some (registered_workers (master_cycle env st).1 !! zone).
Proof.
  destruct st as [m out]. intros Hz.
  destruct (master_cycle_unfold env m out) as (Hreg & _). rewrite Hreg.
  by apply fan_out_keeps_registered.
Qed.

Lemma after_cycles_keeps_registered ticks st zone :
  is_Some (registered_workers st.1 !! zone) →
  is_Some (registered_workers (after_cycles ticks st).1 !! zone).
Proof.
  unfold after_cycles. revert st.
  induction ticks as [| c rest IH]; intros st Hz; simpl; [exact Hz |].
  apply IH. unfold cycle_then_sleep.
  by apply serve_all_keeps_registered, master_cycle_keeps_registered.
Qed.

(** A zone, once registered, stays registered through every request served
    and every cycle run, however its worker behaves; and every cycle posts a
    step command, carrying the new step number, to the url of each zone
    registered when the cycle starts.  A worker that has gone away is thus
    never dropped and is called again in every cycle. *)
Theorem registered_zone_is_never_dropped (zone : string) (m : Master)
        (out : list Output) :
  is_Some (registered_workers m !! zone) →
  (∀ arrivals,
     is_Some (registered_workers (serve_all arrivals (m, out)).1 !! zone))
  ∧ (∀ ticks,
       is_Some (registered_workers (after_cycles ticks (m, out)).1 !! zone))
  ∧ (∀ env info,
       registered_workers m !! zone = Some info →
       (WorkerRecord.url info,
        StepCommand.mk (simulation_step m + 1)%Z "master_123")
       ∈ posted (master_cycle env (m, out)).2).
Proof.
  intros Hz. split; [| split].
  - intros arrivals. by apply (serve_all_keeps_registered arrivals (m, out)).
  - intros ticks. by apply (after_cycles_keeps_registered ticks (m, out)).
  - intros env info Hinfo. rewrite master_cycle_posted.
    apply elem_of_app. right.
    apply (list_elem_of_fmap_2
             (λ item, (WorkerRecord.url item.2,
                       StepCommand.mk (simulation_step m + 1)%Z "master_123"))
             _ (zone, info)).
    by apply elem_of_map_to_list.
Qed.

(** ** Failed calls change only the log *)

Lemma call_worker_state_irrelevant env env' st st' item :
  (∀ z worker_url json,
     served_during_call (post_simulate_step env z worker_url json)
     = served_during_call (post_simulate_step env' z worker_url json)) →
  st.1 = st'.1 →
  (call_worker env st item).1 = (call_worker env' st' item).1.
Proof.
  intros Hserved Hst. destruct item as [zone info]. unfold call_worker.
  rewrite Hst, Hserved.
  assert (Hgen : ∀ arrivals s s', s.1 = s'.1 →
                   (serve_all arrivals s).1 = (serve_all arrivals s').1).
  { unfold serve_all. induction arrivals as [| a rest IH]; intros s s' Hs;
      simpl; [exact Hs |].
    apply IH. destruct s as [m o], s' as [m' o']. simpl in Hs. subst m'.
    unfold serve.
    by destruct (match arrival_request a with
                 | RegisterWorker data => register_worker (arrival_time a) data m
                 | TrafficUpdate data => traffic_update (arrival_time a) data m
                 end) as [[m1 r] lines]. }
  match goal with
  | |- (let '(_, _) := serve_all ?l ?s in _).1
       = (let '(_, _) := serve_all ?l ?s' in _).1 =>
      pose proof (Hgen l s s' eq_refl) as H;
      destruct (serve_all l s) as [m1 o1]; destruct (serve_all l s') as [m2 o2]
  end.
  simpl in H. subst m2.
  by destruct (failure _), (failure _).
Qed.

Lemma fan_out_state_irrelevant env env' items st st' :
  (∀ z worker_url json,
     served_during_call (post_simulate_step env z worker_url json)
     = served_during_call (post_simulate_step env' z worker_url json)) →
  st.1 = st'.1 →
  (foldl (call_worker env) st items).1 = (foldl (call_worker env') st' items).1.
Proof.
  intros Hserved. revert st st'.
  induction items as [| item rest IH]; intros st st' Hst; simpl; [exact Hst |].
  apply IH. by apply call_worker_state_irrelevant.
Qed.

(** Whether a worker call raises or not has no effect on the master state a
    cycle ends in: two cycles that read the same clock and serve the same
    requests during their calls end in the same state, whichever of the calls
    fail.  A failure is only printed. *)
Theorem call_failures_change_only_the_log (env env' : CycleEnv) (m : Master)
        (out out' : list Output) :
  step_clock env = step_clock env' →
  step_end_clock env = step_end_clock env' →
  (∀ z worker_url json,
     served_during_call (post_simulate_step env z worker_url json)
     = served_during_call (post_simulate_step env' z worker_url json)) →
  (master_cycle env (m, out)).1 = (master_cycle env' (m, out')).1.
Proof.
  intros Hclock Hend Hserved. unfold master_cycle. rewrite Hclock, Hend.
  match goal with
  | |- context [foldl (call_worker env) ?s ?items] =>
      match goal with
      | |- context [foldl (call_worker env') ?s' items] =>
          pose proof (fan_out_state_irrelevant env env' items s s' Hserved eq_refl)
            as Hfold;
          destruct (foldl (call_worker env) s items) as [m3 o3];
          destruct (foldl (call_worker env') s' items) as [m3' o3']
      end
  end.
  simpl in Hfold. by subst m3'.
Qed.

(** ** Invariants of the reachable master states *)



Lemma master_cycle_step_times env m out :
  step_times (master_cycle env (m, out)).1
  = step_times m ++ [(step_end_clock env - step_clock env)%Q].
Proof.
  unfold master_cycle.
  match goal with
  | |- context [foldl (call_worker env) ?s ?items] =>
      pose proof (fan_out_loop_globals env items s) as Hg;
      destruct (foldl (call_worker env) s items) as [m3 out3]
  end.
  simpl in *. unfold loop_globals in Hg. simpl in Hg.
  injection Hg as _ _ _ Hstart Htimes _. by rewrite Htimes, Hstart.
Qed.


Lemma truthy_not_empty o s : truthy o = Some s → s ≠ EmptyString.
Proof.
  destruct o as [s' |]; simpl; [| discriminate].
  case_decide; [discriminate | congruence].
Qed.

Lemma register_worker_well_formed now data m :
  registry_well_formed m → registry_well_formed (register_worker now data m).1.1.
Proof.
  intros [Hgrid Hid]. unfold register_worker.
  destruct (truthy (RegisterRequest.zone data)) as [zone |] eqn:Hz; [| done].
  destruct (truthy (RegisterRequest.worker_url data)) as [worker_url |] eqn:Hu;
    [| done].
  destruct (truthy (RegisterRequest.worker_id data)) as [worker_id |] eqn:Hw;
    [| done].
  split; simpl.
  - intros z Hsome. rewrite lookup_insert. case_decide; [done | by apply Hgrid].
  - intros z info. rewrite lookup_insert. case_decide as Hzz.
    + intros [= <-]. subst z. simpl.
      split; [| split]; eapply truthy_not_empty; eassumption.
    + apply Hid.
Qed.

Lemma traffic_update_well_formed now data m :
  registry_well_formed m → registry_well_formed (traffic_update now data m).1.1.
Proof.
  intros [Hgrid Hid]. unfold traffic_update.
  destruct (truthy (UpdateRequest.zone data)) as [zone |] eqn:Hz; [| done].
  destruct (UpdateRequest.car_count data) as [count |]; [| done].
  destruct (truthy (UpdateRequest.worker_id data)) as [worker_id |]; [| done].
  destruct (registered_workers m !! zone) as [info |] eqn:Hinfo; [| done].
  case_decide; [| done].
  split; simpl.
  - intros z. rewrite !lookup_insert. case_decide; [done | by apply Hgrid].
  - intros z info'. rewrite lookup_insert. case_decide as Hzz.
    + intros [= <-]. subst z. simpl. exact (Hid _ _ Hinfo).
    + apply Hid.
Qed.

Lemma serve_well_formed st a :
  registry_well_formed st.1 → registry_well_formed (serve st a).1.
Proof.
  destruct st as [m out], a as [now [data | data]]; unfold serve; simpl; intros Hm.
  - pose proof (register_worker_well_formed now data m Hm) as H.
    destruct (register_worker now data m) as [[m' r] lines]. exact H.
  - pose proof (traffic_update_well_formed now data m Hm) as H.
    destruct (traffic_update now data m) as [[m' r] lines]. exact H.
Qed.

Lemma serve_all_well_formed arrivals st :
  registry_well_formed st.1 → registry_well_formed (serve_all arrivals st).1.
Proof.
  unfold serve_all. revert st.
  induction arrivals as [| a rest IH]; intros st Hst; simpl; [exact Hst |].
  by apply IH, serve_well_formed.
Qed.

Lemma fan_out_well_formed env items st :
  registry_well_formed st.1 →
  registry_well_formed (foldl (call_worker env) st items).1.
Proof.
  revert st. induction items as [| [zone info] rest IH]; intros st Hst; simpl;
    [exact Hst |].
  apply IH. unfold call_worker.
  match goal with
  | |- context [serve_all ?l ?s] =>
      pose proof (serve_all_well_formed l s Hst) as H;
      destruct (serve_all l s) as [m' out']
  end.
  simpl in H. by destruct (failure _).
Qed.

Lemma master_cycle_well_formed env m out :
  registry_well_formed m → registry_well_formed (master_cycle env (m, out)).1.
Proof.
  intros Hm. unfold master_cycle.
  match goal with
  | |- context [foldl (call_worker env) ?s ?items] =>
      pose proof (fan_out_well_formed env items s Hm) as H;
      destruct (foldl (call_worker env) s items) as [m3 out3]
  end.
  exact H.
Qed.


Lemma reachable_registry_well_formed m : reachable m → registry_well_formed m.
Proof.
  induction 1 as [| m out a _ IH | m out env _ IH | m t _ IH | m _ IH].
  - split.
    + intros zone. unfold initial_master. simpl.
      rewrite lookup_empty. by intros [? ?].
    + intros zone info. unfold initial_master. simpl. by rewrite lookup_empty.
  - by apply (serve_well_formed (m, out) a).
  - by apply master_cycle_well_formed.
  - exact IH.
  - exact IH.
Qed.


(** In every state the master can reach, grid data exists only for zones
    that are registered, and every registered zone has a non-empty name, a
    non-empty url and a non-empty worker id. *)
Theorem registry_and_grid_stay_consistent (m : Master) :
  reachable m →
  (∀ zone,
     is_Some (full_simulation_grid_data m !! zone) →
     is_Some (registered_workers m !! zone))
  ∧ (∀ zone info,
       registered_workers m !! zone = Some info →
       zone ≠ EmptyString
       ∧ WorkerRecord.url info ≠ EmptyString
       ∧ WorkerRecord.id info ≠ EmptyString).
Proof. apply reachable_registry_well_formed. Qed.

(** ** The coordinator loop as a whole *)

Lemma cycle_then_sleep_loop_facts st c :
  simulation_active (cycle_then_sleep st c).1 = simulation_active st.1
  ∧ simulation_step (cycle_then_sleep st c).1 = (simulation_step st.1 + 1)%Z
  ∧ length (step_times (cycle_then_sleep st c).1) = S (length (step_times st.1)).
Proof.
  unfold cycle_then_sleep.
  pose proof (serve_all_loop_globals (served_during_sleep c)
                                     (master_cycle (cycle_env c) st)) as Hg.
  unfold loop_globals in Hg. injection Hg as -> -> _ _ -> _.
  destruct st as [m out].
  destruct (master_cycle_unfold (cycle_env c) m out) as (_ & Hstep & _ & Hact & _).
  rewrite master_cycle_step_times, length_app. simpl.
  split; [exact Hact |]. split; [exact Hstep | lia].
Qed.

Lemma after_cycles_loop_facts ticks st :
  simulation_active (after_cycles ticks st).1 = simulation_active st.1
  ∧ simulation_step (after_cycles ticks st).1
    = (simulation_step st.1 + Z.of_nat (length ticks))%Z
  ∧ length (step_times (after_cycles ticks st).1)
    = length (step_times st.1) + length ticks.
Proof.
  unfold after_cycles. revert st.
  induction ticks as [| c rest IH]; intros st.
  - simpl. split; [done |]. split; lia.
  - cbn [foldl length].
    destruct (IH (cycle_then_sleep st c)) as (-> & -> & ->).
    destruct (cycle_then_sleep_loop_facts st c) as (-> & -> & ->).
    split; [done |]. split; lia.
Qed.

(** How the stepping loop stops: it runs a cycle for every clock reading
    that is before the deadline and stops at the first one that is not. *)
Lemma run_cycles_stops_at_deadline end_time ticks st st' :
  simulation_active st.1 = true →
  run_cycles end_time ticks st = Some st' →
  ∃ k c,
    ticks !! k = Some c
    ∧ before (loop_clock c) end_time = false
    ∧ Forall (λ c', before (loop_clock c') end_time = true) (take k ticks)
    ∧ st' = after_cycles (take k ticks) st.
Proof.
  revert st. induction ticks as [| c rest IH]; intros st Hact; cbn [run_cycles];
    rewrite Hact; [discriminate |].
  destruct (before (loop_clock c) end_time) eqn:Hbefore.
  - intros Hrun. apply IH in Hrun as (k & c' & Hk & Hc' & Hall & ->).
    + exists (S k), c'. split; [exact Hk |]. split; [exact Hc' |].
      split; [by constructor | reflexivity].
    + pose proof (proj1 (cycle_then_sleep_loop_facts st c)) as Hkeep.
      unfold cycle_then_sleep in Hkeep. by rewrite Hkeep.
  - intros [= <-]. exists 0, c. split; [reflexivity |]. split; [exact Hbefore |].
    split; [constructor | reflexivity].
Qed.

Lemma wait_for_workers_timeout start ticks st st' :
  wait_for_workers start ticks st = Some st' →
  simulation_active st'.1 = simulation_active st.1
  ∧ (size (registered_workers st'.1) < length expected_zones →
     ∃ w, w ∈ ticks ∧ (initial_wait_timeout < wait_clock w - start)%Q).
Proof.
  revert st. induction ticks as [| w rest IH]; intros st;
    cbn [wait_for_workers];
    destruct (Nat.ltb_spec (size (registered_workers st.1)) (length expected_zones))
      as [Hlt | Hge].
  - discriminate.
  - intros [= <-]. split; [done | lia].
  - destruct (gtQ _ _) eqn:Hc.
    + intros [= <-]. split; [done |]. intros _. exists w.
      split; [by left | by apply gtQ_true].
    + intros Hrun. destruct (IH _ Hrun) as (Hact & Hw).
      split.
      * rewrite Hact.
        pose proof (serve_all_loop_globals (served_during_wait w) st) as Hg.
        unfold loop_globals in Hg. by injection Hg as _ -> _.
      * intros Hsize. destruct (Hw Hsize) as (w' & Hin & Hlate).
        exists w'. split; [by right | exact Hlate].
  - intros [= <-]. split; [done | lia].
Qed.


Lemma run_cycles_no_deadline ticks st st' :
  simulation_active st.1 = true → run_cycles None ticks st = Some st' → False.
Proof.
  intros Hact Hrun.
  apply run_cycles_stops_at_deadline in Hrun as (k & c & _ & Hc & _);
    [discriminate | exact Hact].
Qed.

(** Without a deadline the stepping loop never ends by itself.  A duration of
    0 counts as no deadline, not as a deadline that has already passed: with
    [duration] absent or 0 and the simulation active, the only way
    [master_simulation_loop] returns is the start-up exit with no worker
    registered, before any cycle. *)
Theorem no_duration_means_no_end (duration : option Z) (test_mode : bool)
        (env : LoopEnv) (m : Master) (run : Run) :
  duration = None ∨ duration = Some 0%Z →
  simulation_active m = true →
  master_simulation_loop duration test_mode env m = Some run →
  registered_workers (final run) = ∅
  ∧ simulation_step (final run) = simulation_step m
  ∧ posted (output run) = [].
Proof.
  intros Hd Hact. unfold master_simulation_loop.
  destruct (startup_wait env m) as [[m1 out1] |] eqn:Hwait; [| discriminate].
  unfold startup_wait in Hwait.
  destruct (wait_for_workers_spec _ _ _ _ Hwait) as (Hg & Hp & _).
  destruct (wait_for_workers_timeout _ _ _ _ Hwait) as (Hact1 & _).
  simpl in Hg, Hp, Hact1.
  destruct (Nat.eqb_spec (size (registered_workers m1)) 0) as [Hzero | Hsome].
  - intros [= <-]. simpl.
    split; [by apply map_size_empty_iff |].
    split; [apply (loop_globals_step _ _ Hg) |].
    by rewrite posted_app, Hp.
  - assert (Hend : match duration with
                   | Some d => if (d =? 0)%Z then None
                               else Some (start_clock env + inject_Z d)%Q
                   | None => None
                   end = None)
      by (destruct Hd as [-> | ->]; reflexivity).
    rewrite Hend.
    destruct (run_cycles None (cycles env) _) as [[m2 out4] |] eqn:Hrun;
      [| discriminate].
    apply run_cycles_no_deadline in Hrun; [done |].
    simpl. by rewrite Hact1.
Qed.

Lemma serve_all_reachable arrivals st :
  reachable st.1 → reachable (serve_all arrivals st).1.
Proof.
  unfold serve_all. revert st.
  induction arrivals as [| a rest IH]; intros st Hst; cbn [foldl]; [exact Hst |].
  apply IH. destruct st as [m out]. by constructor.
Qed.

Lemma after_cycles_reachable ticks st :
  reachable st.1 → reachable (after_cycles ticks st).1.
Proof.
  unfold after_cycles. revert st.
  induction ticks as [| c rest IH]; intros st Hst; cbn [foldl]; [exact Hst |].
  apply IH. unfold cycle_then_sleep. apply serve_all_reachable.
  destruct st as [m out]. by constructor.
Qed.

Lemma wait_for_workers_reachable start ticks st st' :
  reachable st.1 →
  wait_for_workers start ticks st = Some st' → reachable st'.1.
Proof.
  revert st. induction ticks as [| w rest IH]; intros st Hst;
    cbn [wait_for_workers];
    destruct (size (registered_workers st.1) <? length expected_zones).
  - discriminate.
  - by intros [= <-].
  - destruct (gtQ _ _); [by intros [= <-] |].
    apply IH. by apply serve_all_reachable.
  - by intros [= <-].
Qed.

(** Every completed run of [master_simulation_loop] hands control back
    normally and leaves the simulation marked inactive.  It has run some
    number [k] of cycles, at most the number of clock readings taken: the
    step counter has advanced by exactly [k] and exactly [k] step durations
    have been recorded.  With a deadline (a non-zero duration) every cycle
    run began at a reading before [start + duration], and the run ended at
    the first reading that was not.  Started from a reachable state, it ends
    in one. *)
Theorem completed_run_accounts_for_its_cycles (duration : option Z)
        (test_mode : bool) (env : LoopEnv) (m : Master) (run : Run) :
  simulation_active m = true →
  master_simulation_loop duration test_mode env m = Some run →
  control run = Normal
  ∧ simulation_active (final run) = false
  ∧ (reachable m → reachable (final run))
  ∧ ∃ k,
      k ≤ length (cycles env)
      ∧ simulation_step (final run) = (simulation_step m + Z.of_nat k)%Z
      ∧ length (step_times (final run)) = length (step_times m) + k
      ∧ (∀ d, duration = Some d → d ≠ 0%Z →
           Forall (λ c, (loop_clock c < start_clock env + inject_Z d)%Q)
                  (take k (cycles env))
           ∧ (registered_workers (final run) ≠ ∅ →
              ∃ c, cycles env !! k = Some c
                   ∧ (start_clock env + inject_Z d <= loop_clock c)%Q)).
Proof.
  intros Hact. unfold master_simulation_loop.
  destruct (startup_wait env m) as [[m1 out1] |] eqn:Hwait; [| discriminate].
  unfold startup_wait in Hwait.
  destruct (wait_for_workers_spec _ _ _ _ Hwait) as (Hg & _ & _).
  destruct (wait_for_workers_timeout _ _ _ _ Hwait) as (Hact1 & _).
  assert (Hreach : reachable m → reachable m1).
  { intros Hm.
    change m1 with (m1, out1).1.
    eapply wait_for_workers_reachable; [| exact Hwait].
    simpl. by constructor. }
  simpl in Hg, Hact1.
  assert (Hstep1 : simulation_step m1 = simulation_step m)
    by apply (loop_globals_step _ _ Hg).
  assert (Htimes1 : step_times m1 = step_times m).
  { unfold loop_globals in Hg. by injection Hg as _ _ _ _ -> _. }
  destruct (Nat.eqb_spec (size (registered_workers m1)) 0) as [Hzero | Hsome].
  - intros [= <-]. simpl.
    split; [reflexivity |]. split; [reflexivity |].
    split; [intros Hm; by constructor; apply Hreach |].
    exists 0. split; [lia |]. split; [lia |]. split; [rewrite Htimes1; lia |].
    intros d _ _. split; [constructor |].
    intros Hne. by apply map_size_empty_iff in Hzero.
  - match goal with
    | |- context [run_cycles ?e (cycles env) ?s] =>
        destruct (run_cycles e (cycles env) s) as [[m2 out4] |] eqn:Hrun;
        [| discriminate]
    end.
    apply run_cycles_stops_at_deadline in Hrun
      as (k & c & Hk & Hc & Hall & Hst); [| simpl; by rewrite Hact1].
    assert (Hm2 : m2 = (after_cycles (take k (cycles env)) (m1, out1 ++ [Printed (StartingWith (size (registered_workers m1)) (map_to_list (registered_workers m1)).*1)])).1)
      by (by rewrite <- Hst).
    destruct (after_cycles_loop_facts (take k (cycles env))
                (m1, out1 ++ [Printed (StartingWith (size (registered_workers m1)) (map_to_list (registered_workers m1)).*1)]))
      as (_ & Hstep2 & Htimes2).
    rewrite <- Hm2 in Hstep2, Htimes2. simpl in Hstep2, Htimes2.
    assert (Hklt : k < length (cycles env)) by (by eapply lookup_lt_Some).
    rewrite length_take in Hstep2, Htimes2.
    replace (Nat.min k (length (cycles env))) with k in * by lia.
    intros [= <-]. simpl.
    split; [reflexivity |]. split; [reflexivity |].
    split.
    { intros Hm. constructor. rewrite Hm2.
      apply after_cycles_reachable. by apply Hreach. }
    exists k. split; [lia |]. split; [lia |].
    split; [rewrite <- Htimes1; lia |].
    intros d -> Hd. rewrite <- Z.eqb_neq in Hd. rewrite Hd in Hall, Hc.
    split.
    + eapply Forall_impl; [exact Hall |]. simpl. intros c'. apply ltQ_true.
    + intros _. exists c. split; [exact Hk |]. by apply ltQ_false.
Qed.

(** ** What a subscriber receives *)

Lemma emitted_steps_complete observed last :
  StronglySorted Z.le (simulation_step <$> observed) →
  Forall (λ s, (last ≤ s)%Z) (simulation_step <$> observed) →
  ∀ s, s ∈ Payload.step <$> emitted (generate_data_from last observed)
       ↔ s ∈ simulation_step <$> observed ∧ (last < s)%Z.
Proof.
  revert last. induction observed as [| m rest IH]; intros last Hsorted Hlast s.
  { simpl. split; [by intros ?%elem_of_nil | by intros [?%elem_of_nil _]]. }
  rewrite fmap_cons in Hsorted, Hlast.
  apply StronglySorted_inv in Hsorted as [Hsorted Hhead].
  apply Forall_cons in Hlast as [Hm Hrest].
  rewrite generate_data_from_cons, generate_data_pass_spec, fmap_cons.
  destruct (Z.ltb_spec last (simulation_step m)) as [Hlt | Hge]; simpl.
  - rewrite !elem_of_cons, (IH (simulation_step m) Hsorted Hhead s).
    split.
    + intros [-> | [Hin Hgt]]; [by auto | split; [by auto | lia]].
    + intros [[-> | Hin] Hgt]; [by left |].
      rewrite Forall_forall in Hhead. specialize (Hhead s Hin).
      destruct (decide (s = simulation_step m)) as [-> | Hne]; [by left |].
      right. split; [exact Hin | lia].
  - rewrite elem_of_cons, (IH last Hsorted Hrest s).
    split; [intros [Hin Hgt]; by auto |].
    intros [[-> | Hin] Hgt]; [lia | by split].
Qed.

Lemma StronglySorted_lt_NoDup (l : list Z) : StronglySorted Z.lt l → NoDup l.
Proof.
  induction 1 as [| x l _ IH Hall]; constructor; [| exact IH].
  intros Hin. rewrite Forall_forall in Hall. specialize (Hall x Hin). lia.
Qed.

Lemma emitted_length (events : list (option Payload.t)) :
  length (emitted events) ≤ length events.
Proof.
  induction events as [| [p |] rest IH]; simpl; lia.
Qed.

Lemma generate_data_from_length last observed :
  length (generate_data_from last observed) = length observed.
Proof.
  revert last. induction observed as [| m rest IH]; intros last; [reflexivity |].
  rewrite generate_data_from_cons. simpl. by rewrite IH.
Qed.

(** A subscriber that wakes up often enough misses nothing and gets nothing
    twice: when the step numbers it observes never decrease and are not
    negative (as the master guarantees), the step numbers of the events it
    is sent are exactly the step numbers it observed, each once. *)
Theorem subscriber_gets_each_observed_step_once (observed : list Master) :
  StronglySorted Z.le (simulation_step <$> observed) →
  Forall (λ s, (0 ≤ s)%Z) (simulation_step <$> observed) →
  let steps := Payload.step <$> emitted (generate_data observed) in
  (∀ s, s ∈ steps ↔ s ∈ simulation_step <$> observed)
  ∧ NoDup steps
  ∧ length steps ≤ length observed.
Proof.
  intros Hsorted Hnonneg steps. split; [| split].
  - intros s. unfold steps, generate_data.
    rewrite (emitted_steps_complete observed (-1) Hsorted).
    + split; [by intros [? _] |]. intros Hin. split; [exact Hin |].
      rewrite Forall_forall in Hnonneg. specialize (Hnonneg s Hin). lia.
    + eapply Forall_impl; [exact Hnonneg |]. simpl. intros; lia.
  - apply StronglySorted_lt_NoDup, emitted_steps_increase.
  - unfold steps, generate_data. rewrite length_fmap.
    etransitivity; [apply emitted_length |].
    by rewrite generate_data_from_length.
Qed.


(** ** More on a single move *)


(** ** The older registration loop *)

Lemma older_registration_spec worker_id worker_zone master_url self_url
      attempt retries :
  let result :=
    PerformanceTest.register_with_master worker_id worker_zone master_url self_url
                                         attempt retries in
  (result.2 = Normal
   ↔ ∃ k, 1 ≤ k ≤ retries ∧ attempt k = PostOk
          ∧ ∀ j, k < j ≤ retries → attempt j = PostConnectionError)
  ∧ (result.2 = Normal ∨ result.2 = SysExit 1)
  ∧ (∀ k e, 1 ≤ k ≤ retries →
            attempt k = PostRequestException e →
            (∀ j, k < j ≤ retries → attempt j = PostConnectionError) →
            result.2 = SysExit 1 ∧ length result.1 = retries - k + 1).
Proof.
  induction retries as [| n IH]; simpl.
  - split; [| split; [by right | intros k e Hk; lia]].
    split; [discriminate | intros (k & Hk & _); lia].
  - destruct IH as (Hiff & Hcases & Hexc).
    destruct (attempt (S n)) eqn:Ha; simpl.
    + split; [| split; [by left |]].
      * split; [| done]. intros _. exists (S n).
        split; [lia |]. split; [exact Ha | intros j Hj; lia].
      * intros k e Hk Hke Hconn.
        destruct (decide (k = S n)) as [-> | Hne]; [congruence |].
        specialize (Hconn (S n) ltac:(lia)). congruence.
    + destruct (PerformanceTest.register_with_master _ _ _ _ _ n) as [lines c].
      simpl in *. split; [| split; [exact Hcases |]].
      * rewrite Hiff. split.
        -- intros (k & Hk & Hok & Hconn). exists k.
           split; [lia |]. split; [exact Hok |]. intros j Hj.
           destruct (decide (j = S n)) as [-> | Hne]; [exact Ha |].
           apply Hconn. lia.
        -- intros (k & Hk & Hok & Hconn).
           destruct (decide (k = S n)) as [-> | Hne]; [congruence |].
           exists k. split; [lia |]. split; [exact Hok |].
           intros j Hj. apply Hconn. lia.
      * intros k e Hk Hke Hconn.
        destruct (decide (k = S n)) as [-> | Hne]; [congruence |].
        destruct (Hexc k e ltac:(lia) Hke) as [Hc Hlen].
        { intros j Hj. apply Hconn. lia. }
        split; [exact Hc | lia].
    + split; [| split; [by right |]].
      * split; [discriminate |]. intros (k & Hk & Hok & Hconn).
        destruct (decide (k = S n)) as [-> | Hne]; [congruence |].
        specialize (Hconn (S n) ltac:(lia)). congruence.
      * intros k e' Hk Hke Hconn.
        destruct (decide (k = S n)) as [-> | Hne].
        -- split; [reflexivity | simpl; lia].
        -- specialize (Hconn (S n) ltac:(lia)). congruence.
Qed.

(** In the older variant of the worker ([src/performance_test.py]) the
    registration loop succeeds exactly when some attempt succeeds and every
    attempt before it failed with a connection error: a request error of any
    other kind ends the process with status 1 at once, without using the
    retries that are left. *)
Theorem older_registration_gives_up_on_other_errors
        (worker_id worker_zone master_url self_url : string)
        (attempt : nat → PostResult) (retries : nat) :
  let '(lines, c) :=
    PerformanceTest.register_with_master worker_id worker_zone master_url self_url
                                         attempt retries in
  (c = Normal
   ↔ ∃ k, 1 ≤ k ≤ retries ∧ attempt k = PostOk
          ∧ ∀ j, k < j ≤ retries → attempt j = PostConnectionError)
  ∧ (c = Normal ∨ c = SysExit 1)
  ∧ (∀ k e, 1 ≤ k ≤ retries →
            attempt k = PostRequestException e →
            (∀ j, k < j ≤ retries → attempt j = PostConnectionError) →
            c = SysExit 1 ∧ length lines = retries - k + 1).
Proof.
  pose proof (older_registration_spec worker_id worker_zone master_url self_url
                                      attempt retries) as H.
  destruct (PerformanceTest.register_with_master _ _ _ _ _ _) as [lines c].
  exact H.
Qed.

(** * The further properties at concrete inputs *)

Lemma north_reported_reachable : reachable north_reported.
Proof.
  exact (reachable_serve _ []
           (mkArrival 2 (TrafficUpdate (north_report "worker_1" 5)))
           (reachable_serve _ []
              (mkArrival 1 (RegisterWorker (north_registration "worker_1")))
              reachable_initial)).
Qed.

Lemma car_near_edge_in_range : in_range car_near_edge.
Proof. split; vm_compute; discriminate. Qed.

Lemma tick_keeps_every_vehicle_in_range_witness :
  Forall in_range (Worker.worker_vehicles worker_at_capacity)
  ∧ Forall in_range
      (Worker.worker_vehicles
         (worker_simulate_step eager_draws 0 (StepCommand.mk 1 "master_123")
                               worker_at_capacity).1.1).
Proof.
  assert (Hall : Forall in_range (Worker.worker_vehicles worker_at_capacity))
    by (apply Forall_replicate, car_near_edge_in_range).
  split; [exact Hall |].
  pose proof (tick_keeps_every_vehicle_in_range
                eager_draws 0 (StepCommand.mk 1 "master_123")
                worker_at_capacity Hall) as H.
  destruct (worker_simulate_step eager_draws 0 (StepCommand.mk 1 "master_123")
                                 worker_at_capacity) as [[w' report] response].
  exact (proj1 H).
Defined.

Lemma tick_changes_count_by_at_most_one_witness :
  20 ≤ length (Worker.worker_vehicles worker_at_capacity)
  ∧ 20 ≤ length (Worker.worker_vehicles
                   (worker_simulate_step eager_draws 0
                      (StepCommand.mk 1 "master_123") worker_at_capacity).1.1).
Proof.
  assert (Hfloor : 20 ≤ length (Worker.worker_vehicles worker_at_capacity))
    by (vm_compute; lia).
  destruct (tick_changes_count_by_at_most_one
              eager_draws 0 (StepCommand.mk 1 "master_123") worker_at_capacity)
    as (_ & Hkeep & _).
  split; [exact Hfloor | exact (Hkeep Hfloor)].
Defined.

Lemma worker_population_stays_in_bounds_witness :
  unit_draws (initial_draw north_startup)
  ∧ 20 ≤ length (Worker.worker_vehicles (worker_run two_ticks north_worker))
    ≤ MAX_CARS_PER_ZONE
  ∧ Forall in_range (Worker.worker_vehicles (worker_run two_ticks north_worker)).
Proof.
  assert (Hdraws : unit_draws (initial_draw north_startup)).
  { intros i. simpl. split; discriminate. }
  destruct (worker_population_stays_in_bounds
              "North" "localhost" 5000 north_startup two_ticks Hdraws)
    as (_ & Hcount & Hrange).
  split; [exact Hdraws |]. split; [exact Hcount | exact Hrange].
Defined.

Lemma light_flips_only_after_cycle_time_witness :
  TrafficLight.state (TrafficLight.update 3 red_light)
  ≠ TrafficLight.state red_light
  ∧ TrafficLight.last_change_time (TrafficLight.update 3 red_light) = 3%Q
  ∧ TrafficLight.update 5 (TrafficLight.update 3 red_light)
    = TrafficLight.update 3 red_light.
Proof.
  assert (Hflip : TrafficLight.state (TrafficLight.update 3 red_light)
                  ≠ TrafficLight.state red_light)
    by (vm_compute; discriminate).
  destruct (light_flips_only_after_cycle_time 3 red_light)
    as (_ & _ & _ & _ & Hlast & _ & Hhold).
  split; [exact Hflip |]. split; [exact (Hlast Hflip) |].
  apply (Hhold 5%Q Hflip). vm_compute. discriminate.
Defined.


Lemma registration_succeeds_iff_an_attempt_does_witness :
  (∃ k, 1 ≤ k ≤ 10 ∧ registration_attempt north_startup k = PostOk)
  ∧ (register_with_master "worker_4242" "North" "http://localhost:5000"
                          "http://localhost:5102"
                          (registration_attempt north_startup) 10).2
    = Normal.
Proof.
  assert (Hok : ∃ k, 1 ≤ k ≤ 10 ∧ registration_attempt north_startup k = PostOk)
    by (exists 8; split; [lia | reflexivity]).
  split; [exact Hok |].
  pose proof (registration_succeeds_iff_an_attempt_does
                "worker_4242" "North" "http://localhost:5000"
                "http://localhost:5102" (registration_attempt north_startup) 10)
    as H.
  destruct (register_with_master "worker_4242" "North" "http://localhost:5000"
                                 "http://localhost:5102"
                                 (registration_attempt north_startup) 10)
    as [lines c].
  exact (proj2 (proj1 H) Hok).
Defined.


Lemma started_worker_reports_are_accepted_witness :
  "North" ≠ EmptyString
  ∧ status_code (register_worker 1
                   (registration_request "North" (pid north_startup) 5102)
                   initial_master).1.2 = 200%Z.
Proof.
  assert (Hzone : "North" ≠ EmptyString) by discriminate.
  split; [exact Hzone |].
  pose proof (started_worker_reports_are_accepted
                "North" "localhost" 5000 north_startup 5102 1 initial_master Hzone)
    as H.
  cbv zeta in H.
  destruct (register_worker 1 (registration_request "North" (pid north_startup) 5102)
                            initial_master) as [[m1 response] lines].
  exact (proj1 H).
Defined.

Lemma registration_touches_only_the_registry_witness :
  truthy (RegisterRequest.worker_url
            (RegisterRequest.mk (Some "North") None (Some "worker_3"))) = None
  ∧ status_code (register_worker 4
                   (RegisterRequest.mk (Some "North") None (Some "worker_3"))
                   north_reported).1.2 = 400%Z
  ∧ (register_worker 4
       (RegisterRequest.mk (Some "North") None (Some "worker_3"))
       north_reported).1.1 = north_reported.
Proof.
  pose proof (registration_touches_only_the_registry
                4 (RegisterRequest.mk (Some "North") None (Some "worker_3"))
                north_reported) as H.
  destruct (register_worker 4
              (RegisterRequest.mk (Some "North") None (Some "worker_3"))
              north_reported) as [[m' response] lines].
  destruct H as (_ & _ & _ & Hmissing & Hsame & _).
  assert (H400 : status_code response = 400%Z)
    by (apply (proj1 Hmissing); right; left; reflexivity).
  split; [reflexivity |]. split; [exact H400 | exact (Hsame H400)].
Defined.

Lemma running_total_drifts_only_on_reregistration_witness :
  truthy (RegisterRequest.zone (north_registration "worker_2")) = Some "North"
  ∧ status_code (register_worker 3 (north_registration "worker_2")
                                 north_reported).1.2 = 200%Z
  ∧ drift (register_worker 3 (north_registration "worker_2") north_reported).1.1
    = (drift north_reported
       + default 0%Z (WorkerRecord.car_count
                        <$> registered_workers north_reported !! "North"))%Z.
Proof.
  assert (H200 : status_code (register_worker 3 (north_registration "worker_2")
                                              north_reported).1.2 = 200%Z)
    by (vm_compute; reflexivity).
  destruct (running_total_drifts_only_on_reregistration 3 north_reported)
    as [_ Hreg].
  split; [reflexivity |]. split; [exact H200 |].
  exact (Hreg (north_registration "worker_2") "North" eq_refl H200).
Defined.

Lemma later_report_supersedes_earlier_witness :
  truthy (UpdateRequest.zone (north_report "worker_1" 7))
  = truthy (UpdateRequest.zone (north_report "worker_1" 9))
  ∧ status_code (traffic_update 4 (north_report "worker_1" 7) north_reported).1.2
    = 200%Z
  ∧ status_code (traffic_update 5 (north_report "worker_1" 9) north_reported).1.2
    = 200%Z
  ∧ (traffic_update 5 (north_report "worker_1" 9)
       (traffic_update 4 (north_report "worker_1" 7) north_reported).1.1).1.1
    = (traffic_update 5 (north_report "worker_1" 9) north_reported).1.1.
Proof.
  assert (H1 : status_code (traffic_update 4 (north_report "worker_1" 7)
                                           north_reported).1.2 = 200%Z)
    by (vm_compute; reflexivity).
  assert (H2 : status_code (traffic_update 5 (north_report "worker_1" 9)
                                           north_reported).1.2 = 200%Z)
    by (vm_compute; reflexivity).
  split; [reflexivity |]. split; [exact H1 |]. split; [exact H2 |].
  exact (later_report_supersedes_earlier
           4 5 (north_report "worker_1" 7) (north_report "worker_1" 9)
           north_reported eq_refl H1 H2).
Defined.

Lemma reports_of_different_zones_commute_witness :
  truthy (UpdateRequest.zone (north_report "worker_1" 7))
  ≠ truthy (UpdateRequest.zone (south_report 3))
  ∧ status_code (traffic_update 4 (north_report "worker_1" 7) two_zones).1.2
    = 200%Z
  ∧ status_code (traffic_update 5 (south_report 3) two_zones).1.2 = 200%Z
  ∧ (traffic_update 5 (south_report 3)
       (traffic_update 4 (north_report "worker_1" 7) two_zones).1.1).1.1
    = (traffic_update 4 (north_report "worker_1" 7)
         (traffic_update 5 (south_report 3) two_zones).1.1).1.1.
Proof.
  assert (Hne : truthy (UpdateRequest.zone (north_report "worker_1" 7))
                ≠ truthy (UpdateRequest.zone (south_report 3)))
    by (vm_compute; discriminate).
  assert (H1 : status_code (traffic_update 4 (north_report "worker_1" 7)
                                           two_zones).1.2 = 200%Z)
    by (vm_compute; reflexivity).
  assert (H2 : status_code (traffic_update 5 (south_report 3) two_zones).1.2
               = 200%Z)
    by (vm_compute; reflexivity).
  split; [exact Hne |]. split; [exact H1 |]. split; [exact H2 |].
  exact (reports_of_different_zones_commute
           4 5 (north_report "worker_1" 7) (south_report 3) two_zones Hne H1 H2).
Defined.

Lemma registered_zone_is_never_dropped_witness :
  is_Some (registered_workers north_reported !! "North")
  ∧ is_Some (registered_workers
               (after_cycles [quiet_tick; quiet_tick] (north_reported, [])).1
             !! "North").
Proof.
  assert (Hreg : is_Some (registered_workers north_reported !! "North")).
  { exists (WorkerRecord.mk "http://localhost:5100" 2 5 "worker_1"
                            (ZoneData.mk [] None)).
    vm_compute. reflexivity. }
  destruct (registered_zone_is_never_dropped "North" north_reported [] Hreg)
    as (_ & Hcycles & _).
  split; [exact Hreg | exact (Hcycles [quiet_tick; quiet_tick])].
Defined.

Lemma call_failures_change_only_the_log_witness :
  step_clock all_calls_fail = step_clock all_calls_succeed
  ∧ step_end_clock all_calls_fail = step_end_clock all_calls_succeed
  ∧ (master_cycle all_calls_fail (north_reported, [])).1
    = (master_cycle all_calls_succeed (north_reported, [])).1.
Proof.
  split; [reflexivity |]. split; [reflexivity |].
  exact (call_failures_change_only_the_log
           all_calls_fail all_calls_succeed north_reported [] []
           eq_refl eq_refl (λ _ _ _, eq_refl)).
Defined.


Lemma registry_and_grid_stay_consistent_witness :
  reachable north_reported
  ∧ ∀ zone,
      is_Some (full_simulation_grid_data north_reported !! zone) →
      is_Some (registered_workers north_reported !! zone).
Proof.
  split; [exact north_reported_reachable |].
  exact (proj1 (registry_and_grid_stay_consistent
                  north_reported north_reported_reachable)).
Defined.


Lemma no_duration_means_no_end_witness :
  ∃ run,
    master_simulation_loop (Some 0%Z) false nobody_registers initial_master
    = Some run
    ∧ simulation_active initial_master = true
    ∧ registered_workers (final run) = ∅
    ∧ posted (output run) = [].
Proof.
  destruct (master_simulation_loop (Some 0%Z) false nobody_registers initial_master)
    as [run |] eqn:Hrun.
  - exists run. split; [reflexivity |]. split; [reflexivity |].
    destruct (no_duration_means_no_end (Some 0%Z) false nobody_registers
                                       initial_master run
                                       (or_intror eq_refl) eq_refl Hrun)
      as (Hempty & _ & Hposted).
    split; [exact Hempty | exact Hposted].
  - vm_compute in Hrun. discriminate Hrun.
Defined.

Lemma completed_run_accounts_for_its_cycles_witness :
  ∃ run,
    master_simulation_loop (Some 60%Z) true short_run north_reported = Some run
    ∧ simulation_active north_reported = true
    ∧ control run = Normal
    ∧ simulation_active (final run) = false
    ∧ ∃ k, k ≤ length (cycles short_run)
           ∧ simulation_step (final run)
             = (simulation_step north_reported + Z.of_nat k)%Z.
Proof.
  destruct (master_simulation_loop (Some 60%Z) true short_run north_reported)
    as [run |] eqn:Hrun.
  - exists run. split; [reflexivity |]. split; [reflexivity |].
    destruct (completed_run_accounts_for_its_cycles
                (Some 60%Z) true short_run north_reported run eq_refl Hrun)
      as (Hcontrol & Hactive & _ & k & Hk & Hstep & _).
    split; [exact Hcontrol |]. split; [exact Hactive |].
    exists k. split; [exact Hk | exact Hstep].
  - vm_compute in Hrun. discriminate Hrun.
Defined.

Lemma subscriber_gets_each_observed_step_once_witness :
  simulation_step <$> subscriber_view = [0; 0; 1; 1; 2]%Z
  ∧ (∀ s, s ∈ Payload.step <$> emitted (generate_data subscriber_view)
          ↔ s ∈ simulation_step <$> subscriber_view)
  ∧ NoDup (Payload.step <$> emitted (generate_data subscriber_view)).
Proof.
  assert (Hsteps : simulation_step <$> subscriber_view = [0; 0; 1; 1; 2]%Z)
    by (vm_compute; reflexivity).
  assert (Hsorted : StronglySorted Z.le (simulation_step <$> subscriber_view)).
  { rewrite Hsteps. repeat first [lia | constructor]. }
  assert (Hnonneg : Forall (λ s, (0 ≤ s)%Z) (simulation_step <$> subscriber_view)).
  { rewrite Hsteps. repeat first [lia | constructor]. }
  destruct (subscriber_gets_each_observed_step_once subscriber_view Hsorted Hnonneg)
    as (Hsame & Hnodup & _).
  split; [exact Hsteps |]. split; [exact Hsame | exact Hnodup].
Defined.



Lemma older_registration_gives_up_on_other_errors_witness :
  refused_after_two 3 = PostRequestException "400"
  ∧ (∀ j, 3 < j ≤ 5 → refused_after_two j = PostConnectionError)
  ∧ (PerformanceTest.register_with_master
       "worker_4242" "North" "http://localhost:5000" "http://localhost:5102"
       refused_after_two 5).2 = SysExit 1.
Proof.
  assert (Hconn : ∀ j, 3 < j ≤ 5 → refused_after_two j = PostConnectionError).
  { intros j Hj. assert (j = 4 ∨ j = 5) as [-> | ->] by lia; reflexivity. }
  split; [reflexivity |]. split; [exact Hconn |].
  pose proof (older_registration_gives_up_on_other_errors
                "worker_4242" "North" "http://localhost:5000"
                "http://localhost:5102" refused_after_two 5) as H.
  destruct (PerformanceTest.register_with_master
              "worker_4242" "North" "http://localhost:5000"
              "http://localhost:5102" refused_after_two 5) as [lines c].
  destruct H as (_ & _ & Hexit).
  exact (proj1 (Hexit 3 "400" ltac:(lia) eq_refl Hconn)).
Defined.
